(** * The multi-step identity verification flow of the dashboard front end

    A shallow embedding of the verification wizard of the browser script
    (global variables [ocrResult] and [documentImageFile], [goToStep],
    [resetVerification], the listeners installed by [setupOCRForm] and
    [setupSelfieForm], [processOCRAndContinue], [processFaceComparison] and
    [displayCombinedResults]), and the properties of its state machine;
    then [goToStep] on the blocks and the indicator, the handlers of the
    live updates of the dashboard, and the manual verification form.

    Conventions of the model.
    - The page (markup is not part of the script) is taken to contain every
      element the script looks up by id, the inputs [document-file] and
      [doc-type-ocr] inside [ocr-form], and [selfie-file] inside
      [selfie-form]; so a DOM lookup never yields null.
    - An [async] function runs from its call to its end without another
      listener in between; what [fetch] and [response.json()] deliver is an
      argument of the function.
    - Timers are events of their own ([ToastTimeout]), as is the end of a
      [FileReader] read. *)

From Stdlib Require Import String Ascii List Bool Arith Lia QArith.
From Stdlib Require Import Decimal DecimalString.
Import ListNotations.
Set Warnings "-register-all".

Local Open Scope nat_scope.
Local Open Scope list_scope.
Local Open Scope string_scope.

(** ** JavaScript values, as [JSON.parse] builds them *)

Module JS.

(** A number: its value (a finite double is a rational) and the text
    [Number.prototype.toString] prints for it, which is not recomputed. *)
Record Number := mkNumber { num_value : Q; num_text : string }.

(** [VObj] lists the own properties in the order [Object.entries] yields
    them, each name once.  [VBuiltin] is a method inherited from a
    prototype, which no JSON text denotes but a property read can yield. *)
Inductive value : Type :=
| VUndefined
| VNull
| VBool (b : bool)
| VNum (n : Number)
| VStr (s : string)
| VArr (elems : list value)
| VObj (fields : list (string * value))
| VBuiltin (name : string).

(** What the modelled code can throw: a [TypeError] of the language, the
    rejection of [fetch], the rejection of [response.json()]. *)
Inductive Exn : Type :=
| TypeError
| FetchRejected
| JsonRejected.

Definition nullish (v : value) : bool :=
  match v with
  | VUndefined | VNull => true
  | _ => false
  end.

(** ToBoolean. *)
Definition truthy (v : value) : bool :=
  match v with
  | VUndefined | VNull => false
  | VBool b => b
  | VNum n => negb (Qeq_bool (num_value n) 0)
  | VStr s => negb (String.eqb s EmptyString)
  | VArr _ | VObj _ | VBuiltin _ => true
  end.

Fixpoint lookup (name : string) (fields : list (string * value)) : value :=
  match fields with
  | [] => VUndefined
  | (k, v) :: rest => if String.eqb k name then v else lookup name rest
  end.

Definition has_own (name : string) (fields : list (string * value)) : bool :=
  existsb (fun kv => String.eqb (fst kv) name) fields.

(** [o.name] for the property names this script reads ([success], [data],
    [error], [comparison], [verification], [age_analysis],
    [feature_comparison], [similarity_percentage], [is_match], [confidence],
    [verdict], [message], [recommendation], [significant_gap], [age_gap],
    [match], [similarity], [extracted_details]).  Reading a property of
    [undefined] or [null] throws; of these names the prototypes of the
    primitives define only [String.prototype.match]. *)
Definition prop (o : value) (name : string) : Exn + value :=
  match o with
  | VUndefined | VNull =>
      inl TypeError
  | VObj fields => inr (lookup name fields)
  | VStr _ => inr (if String.eqb name "match" then VBuiltin "match" else VUndefined)
  | VBool _ | VNum _ | VArr _ | VBuiltin _ => inr VUndefined
  end.

Definition decimal (n : nat) : string := NilEmpty.string_of_uint (Nat.to_uint n).

Fixpoint indexed {A : Type} (from : nat) (l : list A) : list (string * A) :=
  match l with
  | [] => []
  | x :: rest => (decimal from, x) :: indexed (S from) rest
  end.

(** The characters of a string, each as a string of its own: one per
    character of the text held here, which for ASCII text is one per code
    unit, as [Object.entries] lists them (a character outside ASCII is held
    as several bytes and listed byte by byte). *)
Fixpoint chars (s : string) : list value :=
  match s with
  | EmptyString => []
  | String c rest => VStr (String c EmptyString) :: chars rest
  end.

(** [Object.entries(o)]. *)
Definition entries (o : value) : Exn + list (string * value) :=
  match o with
  | VUndefined | VNull => inl TypeError
  | VObj fields => inr fields
  | VArr elems => inr (indexed 0 elems)
  | VStr s => inr (indexed 0 (chars s))
  | VBool _ | VNum _ | VBuiltin _ => inr []
  end.

(** ToString, as string concatenation and template literals apply it.  An
    object that has an own [toString] (never callable in parsed JSON) has no
    primitive value; an array is joined with commas, [null] and [undefined]
    elements printing as nothing. *)
Fixpoint to_string (v : value) : Exn + string :=
  match v with
  | VUndefined => inr "undefined"
  | VNull => inr "null"
  | VBool true => inr "true"
  | VBool false => inr "false"
  | VNum n => inr (num_text n)
  | VStr s => inr s
  | VBuiltin name => inr ("function " ++ name ++ "() { [native code] }")
  | VObj fields =>
      if has_own "toString" fields
      then inl TypeError
      else inr "[object Object]"
  | VArr elems =>
      (fix join (l : list value) : Exn + string :=
         match l with
         | [] => inr EmptyString
         | x :: rest =>
             match (if nullish x then inr EmptyString else to_string x) with
             | inl e => inl e
             | inr sx =>
                 match rest with
                 | [] => inr sx
                 | _ :: _ =>
                     match join rest with
                     | inl e => inl e
                     | inr sr => inr (sx ++ "," ++ sr)
                     end
                 end
             end
         end) elems
  end.

End JS.
Import JS.

(** ** The page and the network *)

(** A [File] of the browser: name, declared media type, content. *)
Record File := mkFile {
  file_name : string;
  file_type : string;
  file_bytes : list Byte.byte }.

Inductive FormEntry : Type :=
| FormFile (f : File)
| FormText (s : string).

(** A [FormData] body, in [append] order. *)
Definition FormData := list (string * FormEntry).

Record Request := mkRequest {
  req_url : string;
  req_method : string;
  req_body : FormData }.

(** What [response.json()] does with the body of a response. *)
Inductive Response : Type :=
| Unparsable
| Parsed (v : value).

(** The network: the response [fetch] resolves to, [None] when it rejects. *)
Definition Network := Request -> option Response.

(** The calls that leave the script, in the order they are made. *)
Inductive Effect : Type :=
| Toast (message type : string)
| Loading (show : bool)
| Fetch (req : Request)
| ConsoleError (e : Exn).

Record FeatureItem := mkFeatureItem {
  feature_key : string;
  feature_similarity : string;
  feature_match : bool }.

(** The markup [displayCombinedResults] writes, kept as the values its
    template interpolates (the labels derived from keys by the two
    [replace] calls and the digits of [toFixed(1)] are not spelled out). *)
Record CombinedHtml := mkCombinedHtml {
  html_is_match : bool;
  html_verdict : string;
  html_message : string;
  html_similarity_level : string;
  html_similarity : Number;
  html_confidence : string;
  html_age_warning : option string;
  html_document_info : list (string * string);
  html_features : list FeatureItem;
  html_recommendation : string }.

(** The two global variables of the flow, the parts of the page the flow
    reads and writes, and the effects made so far.
    [document_file] and [selfie_file] are the [files] of the two file inputs,
    [doc_type_ocr] the value of the select and [doc_type_default] the value a
    form reset gives it back, [step_shown] the number [n] of the
    [#step-n] block on display, the four display flags tell whether the
    element is shown, [combined_results] is the content of
    [#combined-results]. *)
Record World := mkWorld {
  ocrResult : value;
  documentImageFile : option File;
  document_file : list File;
  doc_type_ocr : string;
  doc_type_default : string;
  selfie_file : list File;
  step_shown : nat;
  toast_text : string;
  toast_show : bool;
  loading_overlay : bool;
  upload_placeholder : bool;
  file_preview : bool;
  selfie_placeholder : bool;
  selfie_preview : bool;
  combined_results : option CombinedHtml;
  effects : list Effect }.

Definition set_ocrResult (v : value) (w : World) : World :=
  mkWorld v (documentImageFile w) (document_file w) (doc_type_ocr w)
    (doc_type_default w) (selfie_file w) (step_shown w) (toast_text w)
    (toast_show w) (loading_overlay w) (upload_placeholder w) (file_preview w)
    (selfie_placeholder w) (selfie_preview w) (combined_results w) (effects w).

Definition set_documentImageFile (f : option File) (w : World) : World :=
  mkWorld (ocrResult w) f (document_file w) (doc_type_ocr w)
    (doc_type_default w) (selfie_file w) (step_shown w) (toast_text w)
    (toast_show w) (loading_overlay w) (upload_placeholder w) (file_preview w)
    (selfie_placeholder w) (selfie_preview w) (combined_results w) (effects w).

Definition set_document_file (fs : list File) (w : World) : World :=
  mkWorld (ocrResult w) (documentImageFile w) fs (doc_type_ocr w)
    (doc_type_default w) (selfie_file w) (step_shown w) (toast_text w)
    (toast_show w) (loading_overlay w) (upload_placeholder w) (file_preview w)
    (selfie_placeholder w) (selfie_preview w) (combined_results w) (effects w).

Definition set_doc_type_ocr (t : string) (w : World) : World :=
  mkWorld (ocrResult w) (documentImageFile w) (document_file w) t
    (doc_type_default w) (selfie_file w) (step_shown w) (toast_text w)
    (toast_show w) (loading_overlay w) (upload_placeholder w) (file_preview w)
    (selfie_placeholder w) (selfie_preview w) (combined_results w) (effects w).

Definition set_selfie_file (fs : list File) (w : World) : World :=
  mkWorld (ocrResult w) (documentImageFile w) (document_file w) (doc_type_ocr w)
    (doc_type_default w) fs (step_shown w) (toast_text w)
    (toast_show w) (loading_overlay w) (upload_placeholder w) (file_preview w)
    (selfie_placeholder w) (selfie_preview w) (combined_results w) (effects w).

Definition set_step_shown (n : nat) (w : World) : World :=
  mkWorld (ocrResult w) (documentImageFile w) (document_file w) (doc_type_ocr w)
    (doc_type_default w) (selfie_file w) n (toast_text w)
    (toast_show w) (loading_overlay w) (upload_placeholder w) (file_preview w)
    (selfie_placeholder w) (selfie_preview w) (combined_results w) (effects w).

Definition set_toast (text : string) (show : bool) (w : World) : World :=
  mkWorld (ocrResult w) (documentImageFile w) (document_file w) (doc_type_ocr w)
    (doc_type_default w) (selfie_file w) (step_shown w) text
    show (loading_overlay w) (upload_placeholder w) (file_preview w)
    (selfie_placeholder w) (selfie_preview w) (combined_results w) (effects w).

Definition set_loading_overlay (b : bool) (w : World) : World :=
  mkWorld (ocrResult w) (documentImageFile w) (document_file w) (doc_type_ocr w)
    (doc_type_default w) (selfie_file w) (step_shown w) (toast_text w)
    (toast_show w) b (upload_placeholder w) (file_preview w)
    (selfie_placeholder w) (selfie_preview w) (combined_results w) (effects w).

Definition set_file_preview (placeholder preview : bool) (w : World) : World :=
  mkWorld (ocrResult w) (documentImageFile w) (document_file w) (doc_type_ocr w)
    (doc_type_default w) (selfie_file w) (step_shown w) (toast_text w)
    (toast_show w) (loading_overlay w) placeholder preview
    (selfie_placeholder w) (selfie_preview w) (combined_results w) (effects w).

Definition set_selfie_preview (placeholder preview : bool) (w : World) : World :=
  mkWorld (ocrResult w) (documentImageFile w) (document_file w) (doc_type_ocr w)
    (doc_type_default w) (selfie_file w) (step_shown w) (toast_text w)
    (toast_show w) (loading_overlay w) (upload_placeholder w) (file_preview w)
    placeholder preview (combined_results w) (effects w).

Definition set_combined_results (h : option CombinedHtml) (w : World) : World :=
  mkWorld (ocrResult w) (documentImageFile w) (document_file w) (doc_type_ocr w)
    (doc_type_default w) (selfie_file w) (step_shown w) (toast_text w)
    (toast_show w) (loading_overlay w) (upload_placeholder w) (file_preview w)
    (selfie_placeholder w) (selfie_preview w) h (effects w).

Definition log (e : Effect) (w : World) : World :=
  mkWorld (ocrResult w) (documentImageFile w) (document_file w) (doc_type_ocr w)
    (doc_type_default w) (selfie_file w) (step_shown w) (toast_text w)
    (toast_show w) (loading_overlay w) (upload_placeholder w) (file_preview w)
    (selfie_placeholder w) (selfie_preview w) (combined_results w)
    (effects w ++ [e])%list.

(** ** Statements that may throw *)

(** How a statement ends: normally with a value, or by a throw; either way
    with the world as it left it. *)
Inductive Completion (A : Type) : Type :=
| Normal (a : A) (w : World)
| Abrupt (e : Exn) (w : World).
Arguments Normal {A} a w.
Arguments Abrupt {A} e w.

Definition M (A : Type) : Type := World -> Completion A.

Definition ret {A : Type} (a : A) : M A := fun w => Normal a w.

Definition bind {A B : Type} (c : M A) (k : A -> M B) : M B :=
  fun w =>
    match c w with
    | Normal a w' => k a w'
    | Abrupt e w' => Abrupt e w'
    end.

Definition throw {A : Type} (e : Exn) : M A := fun w => Abrupt e w.

(** [try { body } catch (error) { handler }]. *)
Definition try_catch {A : Type} (body : M A) (handler : Exn -> M A) : M A :=
  fun w =>
    match body w with
    | Normal a w' => Normal a w'
    | Abrupt e w' => handler e w'
    end.

(** An expression without effect on the world. *)
Definition eval {A : Type} (r : Exn + A) : M A :=
  fun w =>
    match r with
    | inl e => Abrupt e w
    | inr a => Normal a w
    end.

Definition read {A : Type} (f : World -> A) : M A := fun w => Normal (f w) w.

Definition write (f : World -> World) : M unit := fun w => Normal tt (f w).

Definition world_of {A : Type} (c : Completion A) : World :=
  match c with
  | Normal _ w => w
  | Abrupt _ w => w
  end.

Definition returns {A : Type} (c : Completion A) : bool :=
  match c with
  | Normal _ _ => true
  | Abrupt _ _ => false
  end.

Declare Scope js_scope.
Delimit Scope js_scope with js.
Notation "x <- c ;; k" := (bind c (fun x => k))
  (at level 61, c at next level, right associativity) : js_scope.
Notation "c ;; k" := (bind c (fun _ => k))
  (at level 61, right associativity) : js_scope.

(** Sequencing of expressions that may throw. *)
Definition and_then {A B : Type} (r : Exn + A) (k : A -> Exn + B) : Exn + B :=
  match r with
  | inl e => inl e
  | inr a => k a
  end.

Declare Scope expr_scope.
Delimit Scope expr_scope with expr.
Notation "'let!' x := r 'in' k" := (and_then r (fun x => k))
  (at level 10, x name, k at level 200) : expr_scope.

(** [l.map(f)] for an [f] that may throw. *)
Fixpoint map_exn {A B : Type} (f : A -> Exn + B) (l : list A) : Exn + list B :=
  match l with
  | [] => inr []
  | x :: rest =>
      and_then (f x) (fun y =>
      and_then (map_exn f rest) (fun ys => inr (y :: ys)))
  end.

(** ** The script *)

Local Open Scope js_scope.

Definition API_BASE_URL : string := "http://127.0.0.1:5000/api".

(** [showLoading(show)]. *)
Definition showLoading (show : bool) : M unit :=
  write (fun w => log (Loading show) (set_loading_overlay show w)).

(** [showToast(message, type)]: the text is put in [#toast] and shown; the
    function does not use [type], which only the call carries.  The timer it
    starts is [ToastTimeout] below. *)
Definition showToast (message type : string) : M unit :=
  write (fun w => log (Toast message type) (set_toast message true w)).

(** [console.error('Error:', error)]. *)
Definition console_error (error : Exn) : M unit :=
  write (log (ConsoleError error)).

(** [await fetch(url, { method: 'POST', body })]. *)
Definition fetch (net : Network) (req : Request) : M Response :=
  write (log (Fetch req)) ;;
  match net req with
  | None => throw FetchRejected
  | Some response => ret response
  end.

(** [await response.json()]. *)
Definition json (response : Response) : M value :=
  match response with
  | Unparsable => throw JsonRejected
  | Parsed v => ret v
  end.

(** [goToStep(stepNumber)]: every [.verification-step] is hidden, then
    [#step-stepNumber] is shown and the indicator marks the steps before it
    completed and it active; all of this is the one number [step_shown]. *)
Definition goToStep (stepNumber : nat) : M unit :=
  write (set_step_shown stepNumber).

(** [displayFilePreview(file)] only starts a [FileReader]; what its [onload]
    does is [FilePreviewLoaded] below. *)
Definition displayFilePreview (file : File) : M unit := ret tt.

(** [form.reset()] of [ocr-form]: the file input is emptied and the select
    is given its default back. *)
Definition ocr_form_reset : M unit :=
  write (fun w => set_doc_type_ocr (doc_type_default w) (set_document_file [] w)).

(** [form.reset()] of [selfie-form]. *)
Definition selfie_form_reset : M unit :=
  write (set_selfie_file []).

Definition resetVerification : M unit :=
  write (set_ocrResult VNull) ;;
  write (set_documentImageFile None) ;;
  ocr_form_reset ;;
  selfie_form_reset ;;
  write (set_file_preview true false) ;;
  write (set_selfie_preview true false) ;;
  goToStep 1.

(** The [change] listener of [#document-file]; the browser has put the
    chosen [files] in the input before it runs. *)
Definition document_file_change (files : list File) : M unit :=
  write (set_document_file files) ;;
  match files with
  | file :: _ =>
      write (set_documentImageFile (Some file)) ;;
      displayFilePreview file
  | [] => ret tt
  end.

(** The [drop] listener of [#file-upload-area]; [files] is
    [e.dataTransfer.files]. *)
Definition file_upload_area_drop (files : list File) : M unit :=
  match files with
  | file :: _ =>
      if String.prefix "image/" (file_type file) then
        write (set_document_file files) ;;
        write (set_documentImageFile (Some file)) ;;
        displayFilePreview file
      else showToast "Please upload an image file" "error"
  | [] => showToast "Please upload an image file" "error"
  end.

(** The [click] listener of [#remove-file-btn]. *)
Definition remove_file_btn_click : M unit :=
  write (set_document_file []) ;;
  write (set_documentImageFile None) ;;
  write (set_file_preview true false).

Definition processOCRAndContinue (net : Network) : M unit :=
  files <- read document_file ;;
  docType <- read doc_type_ocr ;;
  match files with
  | [] => showToast "Please select a file" "error"
  | file :: _ =>
      let formData :=
        [("document", FormFile file); ("document_type", FormText docType)] in
      showLoading true ;;
      try_catch
        (response <- fetch net (mkRequest (API_BASE_URL ++ "/kyc/ocr") "POST" formData) ;;
         data <- json response ;;
         showLoading false ;;
         success <- eval (prop data "success") ;;
         if truthy success then
           payload <- eval (prop data "data") ;;
           write (set_ocrResult payload) ;;
           showToast "Document processed! Now upload selfie" "success" ;;
           goToStep 2
         else
           error <- eval (prop data "error") ;;
           text <- eval (to_string error) ;;
           showToast ("OCR failed: " ++ text) "error")
        (fun error =>
           showLoading false ;;
           console_error error ;;
           showToast "Error processing document" "error")
  end.

(** The [change] listener of [#selfie-file] (it only starts a [FileReader]). *)
Definition selfie_file_change (files : list File) : M unit :=
  write (set_selfie_file files).

(** The [click] listener of [#remove-selfie-btn]. *)
Definition remove_selfie_btn_click : M unit :=
  write (set_selfie_file []) ;;
  write (set_selfie_preview true false).

Definition similarityLevel (similarity : Number) : string :=
  if Qle_bool 80 (num_value similarity) then "high"
  else if Qle_bool 60 (num_value similarity) then "medium"
  else "low".

(** [similarity.toFixed(1)]: only a number has the method.  The level is
    taken here as well: of a value that is no number it is never seen, since
    [toFixed] throws before the markup is written. *)
Definition toFixed_receiver (similarity : value) : Exn + Number :=
  match similarity with
  | VNum n => inr n
  | _ => inl TypeError
  end.

(** The body of the [map] over [Object.entries(features)]. *)
Definition feature_item (entry : string * value) : Exn + FeatureItem :=
  (let (key, value) := entry in
   let! matched := prop value "match" in
   let! similarity := prop value "similarity" in
   let! text := to_string similarity in
   inr (mkFeatureItem key text (truthy matched)))%expr.

(** The body of the [map] over [Object.entries(ocrData.extracted_details)];
    [None] is the empty string of a skipped entry. *)
Definition detail_item (entry : string * value) : Exn + option (string * string) :=
  (let (key, value) := entry in
   if truthy value && negb (String.eqb key "document_type") then
     let! text := to_string value in
     inr (Some (key, text))
   else inr None)%expr.

Fixpoint present {A : Type} (l : list (option A)) : list A :=
  match l with
  | [] => []
  | Some x :: rest => x :: present rest
  | None :: rest => present rest
  end.

(** The markup of [displayCombinedResults(ocrData, faceData)], or what its
    evaluation throws. *)
Definition combined_html (ocrData faceData : value) : Exn + CombinedHtml :=
  (let! comparison := prop faceData "comparison" in
   let! verification := prop faceData "verification" in
   let! ageAnalysis := prop faceData "age_analysis" in
   let! features := prop faceData "feature_comparison" in
   let! similarity := prop comparison "similarity_percentage" in
   let! significant_gap := prop ageAnalysis "significant_gap" in
   let! ageWarningHTML :=
     (if truthy significant_gap then
        let! age_gap := prop ageAnalysis "age_gap" in
        let! text := to_string age_gap in
        inr (Some text)
      else inr None) in
   let! featureEntries := entries features in
   let! featuresHTML := map_exn feature_item featureEntries in
   let! is_match := prop comparison "is_match" in
   let! verdict := prop verification "verdict" in
   let! verdict_text := to_string verdict in
   let! message := prop verification "message" in
   let! message_text := to_string message in
   let! number := toFixed_receiver similarity in
   let! confidence := prop comparison "confidence" in
   let! confidence_text := to_string confidence in
   let! extracted_details := prop ocrData "extracted_details" in
   let! detailEntries := entries extracted_details in
   let! details := map_exn detail_item detailEntries in
   let! recommendation := prop verification "recommendation" in
   let! recommendation_text := to_string recommendation in
   inr (mkCombinedHtml (truthy is_match) verdict_text message_text
          (similarityLevel number) number confidence_text ageWarningHTML
          (present details) featuresHTML recommendation_text))%expr.

Definition displayCombinedResults (ocrData faceData : value) : M unit :=
  html <- eval (combined_html ocrData faceData) ;;
  write (set_combined_results (Some html)).

Definition processFaceComparison (net : Network) : M unit :=
  selfieFiles <- read selfie_file ;;
  document <- read documentImageFile ;;
  match document with
  | None =>
      showToast "Document image not found. Please start over." "error" ;;
      goToStep 1
  | Some documentImage =>
      match selfieFiles with
      | [] => showToast "Please select a selfie" "error"
      | selfieFile :: _ =>
          let formData :=
            [("document_image", FormFile documentImage);
             ("selfie_image", FormFile selfieFile)] in
          showLoading true ;;
          try_catch
            (response <- fetch net
               (mkRequest (API_BASE_URL ++ "/kyc/face-compare") "POST" formData) ;;
             data <- json response ;;
             showLoading false ;;
             success <- eval (prop data "success") ;;
             if truthy success then
               payload <- eval (prop data "data") ;;
               ocr <- read ocrResult ;;
               displayCombinedResults ocr payload ;;
               showToast "Verification complete!" "success" ;;
               goToStep 3
             else
               error <- eval (prop data "error") ;;
               text <- eval (to_string error) ;;
               showToast ("Face comparison failed: " ++ text) "error")
            (fun error =>
               showLoading false ;;
               console_error error ;;
               showToast "Error comparing faces" "error")
      end
  end.

(** ** The page as a state machine *)

(** What can happen on the page: the events the script listens to, the
    calls of [resetVerification] the page makes, the end of a timer or of a
    file read.  A submit event carries the network of that moment. *)
Inductive Event : Type :=
| DocumentFileChange (files : list File)
| FileUploadAreaDrop (files : list File)
| RemoveFileBtnClick
| FilePreviewLoaded
| DocTypeChange (t : string)
| OcrFormSubmit (net : Network)
| SelfieFileChange (files : list File)
| RemoveSelfieBtnClick
| SelfiePreviewLoaded
| SelfieFormSubmit (net : Network)
| ResetVerificationCall
| ToastTimeout.

Definition listener (ev : Event) : M unit :=
  match ev with
  | DocumentFileChange files => document_file_change files
  | FileUploadAreaDrop files => file_upload_area_drop files
  | RemoveFileBtnClick => remove_file_btn_click
  | FilePreviewLoaded => write (set_file_preview false true)
  | DocTypeChange t => write (set_doc_type_ocr t)
  | OcrFormSubmit net => processOCRAndContinue net
  | SelfieFileChange files => selfie_file_change files
  | RemoveSelfieBtnClick => remove_selfie_btn_click
  | SelfiePreviewLoaded => write (set_selfie_preview false true)
  | SelfieFormSubmit net => processFaceComparison net
  | ResetVerificationCall => resetVerification
  | ToastTimeout => write (fun w => set_toast (toast_text w) false w)
  end.

Definition dispatch (w : World) (ev : Event) : World :=
  world_of (listener ev w).

Definition run (evs : list Event) (w : World) : World :=
  fold_left dispatch evs w.

(** The page once loaded: both variables [null], step 1 on display, nothing
    attached. *)
Definition page_loaded (default_doc_type : string) : World :=
  mkWorld VNull None [] default_doc_type default_doc_type [] 1 EmptyString false false
    true false true false None [].

Inductive reachable : World -> Prop :=
| reachable_loaded (d : string) : reachable (page_loaded d)
| reachable_dispatch (w : World) (ev : Event) :
    reachable w -> reachable (dispatch w ev).

(** The requests among a list of effects. *)
Fixpoint requests (l : list Effect) : list Request :=
  match l with
  | [] => []
  | Fetch req :: rest => req :: requests rest
  | _ :: rest => requests rest
  end.

(** The notifications of type ["error"] among a list of effects. *)
Fixpoint error_toasts (l : list Effect) : list string :=
  match l with
  | [] => []
  | Toast message type :: rest =>
      if String.eqb type "error" then message :: error_toasts rest
      else error_toasts rest
  | _ :: rest => error_toasts rest
  end.

(** The state of the session proper: the two variables, what is attached to
    the two inputs, the chosen document type, the step on display and the
    rendered result. *)
Definition same_session (w w' : World) : Prop :=
  ocrResult w' = ocrResult w /\
  documentImageFile w' = documentImageFile w /\
  document_file w' = document_file w /\
  doc_type_ocr w' = doc_type_ocr w /\
  selfie_file w' = selfie_file w /\
  step_shown w' = step_shown w /\
  combined_results w' = combined_results w.

(** A response body whose [success] the script takes as true. *)
Definition succeeded (data : value) : bool :=
  match prop data "success" with
  | inr success => truthy success
  | inl _ => false
  end.

(** The request [processOCRAndContinue] builds for an attached file and a
    document type, and the one [processFaceComparison] builds for the stored
    document image and an attached selfie. *)
Definition ocr_request (file : File) (docType : string) : Request :=
  mkRequest (API_BASE_URL ++ "/kyc/ocr") "POST"
    [("document", FormFile file); ("document_type", FormText docType)].

Definition face_compare_request (documentImage selfieFile : File) : Request :=
  mkRequest (API_BASE_URL ++ "/kyc/face-compare") "POST"
    [("document_image", FormFile documentImage);
     ("selfie_image", FormFile selfieFile)].

(** A request that did not come back with a body whose [success] is true:
    [fetch] rejected, the body was no JSON, or [success] is not true. *)
Definition request_failed (answer : option Response) : bool :=
  match answer with
  | Some (Parsed data) => negb (succeeded data)
  | _ => true
  end.

Arguments combined_html : simpl never.

(** The texts of the notifications. *)
Definition select_file_text : string := "Please select a file".
Definition ocr_done_text : string := "Document processed! Now upload selfie".
Definition document_missing_text : string :=
  "Document image not found. Please start over.".
Definition select_selfie_text : string := "Please select a selfie".
Definition verification_done_text : string := "Verification complete!".
Definition compare_error_text : string := "Error comparing faces".

(** The world when the body of a comparison request has been read and the
    loading overlay taken away. *)
Definition compared (w : World) (documentImage selfieFile : File) : World :=
  log (Loading false)
    (set_loading_overlay false
       (log (Fetch (face_compare_request documentImage selfieFile))
          (log (Loading true) (set_loading_overlay true w)))).

(** The requests [c] issues when run from [w]: those after the ones already
    made. *)
Definition new_requests {A : Type} (c : M A) (w : World) : list Request :=
  skipn (length (requests (effects w))) (requests (effects (world_of (c w)))).

(** The event is a submission whose request came back with [success] true:
    the only events after which a later step is on display. *)
Definition answered_with_success (w : World) (ev : Event) : Prop :=
  match ev with
  | OcrFormSubmit net =>
      exists file rest data,
        document_file w = file :: rest /\
        net (ocr_request file (doc_type_ocr w)) = Some (Parsed data) /\
        succeeded data = true
  | SelfieFormSubmit net =>
      exists documentImage selfieFile rest data,
        documentImageFile w = Some documentImage /\
        selfie_file w = selfieFile :: rest /\
        net (face_compare_request documentImage selfieFile) = Some (Parsed data) /\
        succeeded data = true
  | _ => False
  end.

(** Every body with [success] true that the OCR endpoint sends carries a
    [data] that is neither [null] nor missing. *)
Definition ocr_answers_carry_data (ev : Event) : Prop :=
  match ev with
  | OcrFormSubmit net =>
      forall req data payload,
        net req = Some (Parsed data) ->
        succeeded data = true ->
        prop data "data" = inr payload ->
        nullish payload = false
  | _ => True
  end.

(** The stored document image is the file attached to the document input,
    whenever one is attached. *)
Definition attached_is_stored (w : World) : Prop :=
  forall file rest,
    document_file w = file :: rest -> documentImageFile w = Some file.

(** With step 2 on display, [ocrResult] is populated. *)
Definition populated_at_step_2 (w : World) : Prop :=
  step_shown w = 2 -> nullish (ocrResult w) = false.

(** The notifications among a list of effects, each with its type. *)
Fixpoint toasts (l : list Effect) : list (string * string) :=
  match l with
  | [] => []
  | Toast message type :: rest => (message, type) :: toasts rest
  | _ :: rest => toasts rest
  end.

(** The calls of [showLoading] among a list of effects. *)
Fixpoint loadings (l : list Effect) : list bool :=
  match l with
  | [] => []
  | Loading show :: rest => show :: loadings rest
  | _ :: rest => loadings rest
  end.

(** The effects [c] makes when run from [w]: those after the ones already
    made. *)
Definition new_effects {A : Type} (c : M A) (w : World) : list Effect :=
  skipn (length (effects w)) (effects (world_of (c w))).

(** A value that prints without a throw whatever it holds: a primitive. *)
Definition plain (v : value) : bool :=
  match v with
  | VUndefined | VNull | VBool _ | VNum _ | VStr _ => true
  | VArr _ | VObj _ | VBuiltin _ => false
  end.

Definition is_number (v : value) : bool :=
  match v with
  | VNum _ => true
  | _ => false
  end.

(** The shape of a comparison payload that [displayCombinedResults] can
    render: objects [comparison], [verification], [age_analysis] and
    [feature_comparison]; a number as similarity; primitives where a value is
    printed; an object with a primitive [similarity] for every feature. *)
Definition face_shape (faceData : value) : bool :=
  match faceData with
  | VObj fields =>
      match lookup "comparison" fields, lookup "verification" fields,
            lookup "age_analysis" fields, lookup "feature_comparison" fields with
      | VObj comparison, VObj verification, VObj ageAnalysis, VObj features =>
          is_number (lookup "similarity_percentage" comparison) &&
          plain (lookup "confidence" comparison) &&
          plain (lookup "verdict" verification) &&
          plain (lookup "message" verification) &&
          plain (lookup "recommendation" verification) &&
          plain (lookup "age_gap" ageAnalysis) &&
          forallb (fun entry : string * value =>
                     match snd entry with
                     | VObj item => plain (lookup "similarity" item)
                     | _ => false
                     end) features
      | _, _, _, _ => false
      end
  | _ => false
  end.

(** The shape of an OCR payload that [displayCombinedResults] can render:
    an object [extracted_details] whose values are primitives. *)
Definition ocr_shape (ocrData : value) : bool :=
  match ocrData with
  | VObj fields =>
      match lookup "extracted_details" fields with
      | VObj details => forallb (fun entry : string * value => plain (snd entry)) details
      | _ => false
      end
  | _ => false
  end.

(** The entries of the extracted details that the document information
    shows. *)
Definition shown_detail (entry : string * value) : bool :=
  truthy (snd entry) && negb (String.eqb (fst entry) "document_type").

(** ** The step blocks and the step indicator

    [goToStep] in full, on the elements it touches.  The page is taken to
    hold the blocks [#step-1], [#step-2], ... as its [.verification-step]
    elements; [step_blocks] tells for each, in this order, whether it is on
    display, and [step_marks] holds the classes [active] and [completed] of
    the [.step] elements of the indicator. *)

Record StepMark := mkStepMark { mark_active : bool; mark_completed : bool }.

Record Wizard := mkWizard {
  step_blocks : list bool;
  step_marks : list StepMark }.

(** How a statement ends on a state of type [S]: normally, or by a throw;
    either way with the state as it left it. *)
Inductive Outcome (S : Type) : Type :=
| Done (s : S)
| Threw (e : Exn) (s : S).
Arguments Done {S} s.
Arguments Threw {S} e s.

Definition state_of {S : Type} (o : Outcome S) : S :=
  match o with
  | Done s => s
  | Threw _ s => s
  end.

(** The [forEach] over the [.step] elements, from the element of the given
    index: both classes are removed, then [completed] is added to the steps
    before [stepNumber] and [active] to the step [stepNumber]. *)
Fixpoint mark_steps (stepNumber index : nat) (marks : list StepMark) : list StepMark :=
  match marks with
  | [] => []
  | _ :: rest =>
      (if Nat.ltb (index + 1) stepNumber then mkStepMark false true
       else if Nat.eqb (index + 1) stepNumber then mkStepMark true false
       else mkStepMark false false)
      :: mark_steps stepNumber (S index) rest
  end.

(** [element.style.display = 'block'] on the block of the given position;
    [None] when there is no such block. *)
Fixpoint show_block (position : nat) (blocks : list bool) : option (list bool) :=
  match position, blocks with
  | _, [] => None
  | 0, _ :: rest => Some (true :: rest)
  | S position', b :: rest =>
      match show_block position' rest with
      | Some rest' => Some (b :: rest')
      | None => None
      end
  end.

(** [goToStep(stepNumber)]: every block is hidden; [#step-stepNumber] is
    looked up and shown, which throws when there is none; then the indicator
    is updated. *)
Definition goToStep_on_page (stepNumber : nat) (page : Wizard) : Outcome Wizard :=
  let hidden := map (fun _ : bool => false) (step_blocks page) in
  match stepNumber with
  | 0 => Threw TypeError (mkWizard hidden (step_marks page))
  | S position =>
      match show_block position hidden with
      | None => Threw TypeError (mkWizard hidden (step_marks page))
      | Some shown =>
          Done (mkWizard shown (mark_steps stepNumber 0 (step_marks page)))
      end
  end.

(** ** Live updates of the dashboard

    The handlers of the socket events [new_transaction] and [new_alert], on
    the parts of the page they touch. *)

(** A child node of an element: a text node, or an element. *)
Inductive Node (A : Type) : Type :=
| TextNode (text : string)
| ElementNode (element : A).
Arguments TextNode {A} text.
Arguments ElementNode {A} element.

(** [parent.children]: the element children, in order. *)
Fixpoint elements {A : Type} (nodes : list (Node A)) : list A :=
  match nodes with
  | [] => []
  | TextNode _ :: rest => elements rest
  | ElementNode element :: rest => element :: elements rest
  end.

(** A row of the transactions table, kept as the values its template
    interpolates: [row_amount] is the value [formatNumber] prints and
    [row_risk_level] the string whose lower case names the badge class (the
    digits and the lower case are not spelled out); [row_highlight] is the
    class [new-item-highlight]. *)
Record TransactionRow := mkTransactionRow {
  row_highlight : bool;
  row_id : string;
  row_amount : value;
  row_risk_level : string;
  row_risk_score : string;
  row_flagged : bool }.

(** An alert of the alerts list, kept in the same way. *)
Record AlertItem := mkAlertItem {
  alert_highlight : bool;
  alert_severity : string;
  alert_transaction_id : string;
  alert_description : string }.

(** An element child of [#recent-alerts]: an alert, or another element
    (such as a placeholder paragraph). *)
Inductive AlertsChild : Type :=
| OtherElement (markup : string)
| AlertDiv (item : AlertItem).

(** The body of a browser notification about a flagged transaction. *)
Record FlaggedNotice := mkFlaggedNotice {
  notice_amount : value;
  notice_risk_score : string }.

(** [dashboard_active]: [#dashboard-tab] has the class [active];
    [transactions_tbody]: the child nodes of the body of the table in
    [#recent-transactions], [None] when there is no table;
    [recent_alerts]: the child nodes of [#recent-alerts], [None] when the
    element is absent; [notification_granted]: notifications exist and are
    permitted; then the notifications shown and the number of beeps
    played. *)
Record Live := mkLive {
  dashboard_active : bool;
  transactions_tbody : option (list (Node TransactionRow));
  recent_alerts : option (list (Node AlertsChild));
  notification_granted : bool;
  notifications : list (string * FlaggedNotice);
  beeps : nat }.

(** [formatNumber(num)]: [Intl.NumberFormat] turns its argument into a
    number, which throws when the argument has no primitive value; the
    digits it prints are not spelled out. *)
Definition formatNumber (num : value) : Exn + value :=
  (let! text := to_string num in inr num)%expr.

(** [s.toLowerCase()]: only a string has the method. *)
Definition toLowerCase_receiver (s : value) : Exn + string :=
  match s with
  | VStr text => inr text
  | _ => inl TypeError
  end.

(** The markup [prependTransactionToTable] gives the new row. *)
Definition new_transaction_row (transaction : value) : Exn + TransactionRow :=
  (let! id := prop transaction "id" in
   let! id_text := to_string id in
   let! amount := prop transaction "amount" in
   let! amount_shown := formatNumber amount in
   let! risk_level := prop transaction "risk_level" in
   let! level := toLowerCase_receiver risk_level in
   let! risk_score := prop transaction "risk_score" in
   let! score_text := to_string risk_score in
   let! flagged := prop transaction "flagged" in
   inr (mkTransactionRow true id_text amount_shown level score_text
          (truthy flagged)))%expr.

(** The class and the markup [prependAlertToList] gives the new alert. *)
Definition new_alert_div (alert : value) : Exn + AlertItem :=
  (let! severity := prop alert "severity" in
   let! class := toLowerCase_receiver severity in
   let! transaction_id := prop alert "transaction_id" in
   let! id_text := to_string transaction_id in
   let! badge := toLowerCase_receiver severity in
   let! severity_text := to_string severity in
   let! description := prop alert "description" in
   let! description_text := to_string description in
   inr (mkAlertItem true severity_text id_text description_text))%expr.

(** [parent.insertBefore(x, parent.firstChild)], then
    [if (parent.children.length > 5) parent.removeChild(parent.lastChild)]. *)
Definition prepend_capped {A : Type} (x : A) (nodes : list (Node A)) : list (Node A) :=
  let inserted := ElementNode x :: nodes in
  if Nat.ltb 5 (length (elements inserted)) then removelast inserted
  else inserted.

Definition set_transactions_tbody
  (nodes : option (list (Node TransactionRow))) (live : Live) : Live :=
  mkLive (dashboard_active live) nodes (recent_alerts live)
    (notification_granted live) (notifications live) (beeps live).

Definition set_recent_alerts
  (nodes : option (list (Node AlertsChild))) (live : Live) : Live :=
  mkLive (dashboard_active live) (transactions_tbody live) nodes
    (notification_granted live) (notifications live) (beeps live).

Definition prependTransactionToTable (transaction : value) (live : Live) : Outcome Live :=
  match transactions_tbody live with
  | None => Done live
  | Some nodes =>
      match new_transaction_row transaction with
      | inl e => Threw e live
      | inr row =>
          Done (set_transactions_tbody (Some (prepend_capped row nodes)) live)
      end
  end.

Definition prependAlertToList (alert : value) (live : Live) : Outcome Live :=
  match recent_alerts live with
  | None => Done live
  | Some nodes =>
      match new_alert_div alert with
      | inl e => Threw e live
      | inr item =>
          Done (set_recent_alerts (Some (prepend_capped (AlertDiv item) nodes)) live)
      end
  end.

(** [showNotification(title, message)]. *)
Definition showNotification (title : string) (message : FlaggedNotice) (live : Live) : Live :=
  if notification_granted live then
    mkLive (dashboard_active live) (transactions_tbody live) (recent_alerts live)
      (notification_granted live) (notifications live ++ [(title, message)])%list
      (beeps live)
  else live.

(** [playAlertSound()], in a browser that has an audio context. *)
Definition playAlertSound (live : Live) : Live :=
  mkLive (dashboard_active live) (transactions_tbody live) (recent_alerts live)
    (notification_granted live) (notifications live) (S (beeps live)).

(** The text of the notification of [handleNewTransaction]. *)
Definition flagged_notice (transaction : value) : Exn + FlaggedNotice :=
  (let! amount := prop transaction "amount" in
   let! amount_shown := formatNumber amount in
   let! risk_score := prop transaction "risk_score" in
   let! score_text := to_string risk_score in
   inr (mkFlaggedNotice amount_shown score_text))%expr.

Definition handleNewTransaction (transaction : value) (live : Live) : Outcome Live :=
  match (if dashboard_active live
         then prependTransactionToTable transaction live
         else Done live) with
  | Threw e live' => Threw e live'
  | Done live' =>
      match prop transaction "flagged" with
      | inl e => Threw e live'
      | inr flagged =>
          if truthy flagged then
            match flagged_notice transaction with
            | inl e => Threw e live'
            | inr message =>
                Done (showNotification "Suspicious Transaction Detected!"
                        message live')
            end
          else Done live'
      end
  end.

Definition handleNewAlert (alert : value) (live : Live) : Outcome Live :=
  match (if dashboard_active live
         then prependAlertToList alert live
         else Done live) with
  | Threw e live' => Threw e live'
  | Done live' => Done (playAlertSound live')
  end.

Arguments new_transaction_row : simpl never.
Arguments new_alert_div : simpl never.
Arguments flagged_notice : simpl never.

(** ** The manual verification form

    The submit listener installed by [setupKYCForm], and
    [displayKYCResult]. *)

(** A request with a JSON body; [json_body] is the value whose
    [JSON.stringify] text is sent. *)
Record JsonRequest := mkJsonRequest {
  json_url : string;
  json_method : string;
  json_content_type : string;
  json_body : value }.

Definition JsonNetwork := JsonRequest -> option Response.

(** The markup [displayKYCResult] writes, kept as the values its template
    interpolates; [kyc_confidence] is [None] when the confidence block is
    left out. *)
Record KycHtml := mkKycHtml {
  kyc_valid : bool;
  kyc_document_type : string;
  kyc_full_name : string;
  kyc_message : string;
  kyc_confidence : option string }.

(** The values of [#full-name], [#doc-type] and [#doc-number], the content
    of [#kyc-result-content], whether [#kyc-result] is on display, the
    requests with a JSON body made so far, and, in [kyc_world], the toast,
    the loading overlay and the other effects. *)
Record KycPage := mkKycPage {
  kyc_world : World;
  full_name : string;
  doc_type : string;
  doc_number : string;
  kyc_result_content : option KycHtml;
  kyc_result_shown : bool;
  kyc_requests : list JsonRequest }.

(** A statement of the script that cannot throw, run on the shared parts of
    the page. *)
Definition on_world (c : M unit) (page : KycPage) : KycPage :=
  mkKycPage (world_of (c (kyc_world page))) (full_name page) (doc_type page)
    (doc_number page) (kyc_result_content page) (kyc_result_shown page)
    (kyc_requests page).

(** The markup of [displayKYCResult(result)], or what its evaluation
    throws. *)
Definition kyc_html (result : value) : Exn + KycHtml :=
  (let! valid := prop result "valid" in
   let! document_type := prop result "document_type" in
   let! document_type_text := to_string document_type in
   let! name := prop result "full_name" in
   let! name_text := to_string name in
   let! message := prop result "message" in
   let! message_text := to_string message in
   let! confidence := prop result "confidence" in
   let! confidence_block :=
     (if truthy confidence then
        let! text := to_string confidence in inr (Some text)
      else inr None) in
   inr (mkKycHtml (truthy valid) document_type_text name_text message_text
          confidence_block))%expr.

Definition displayKYCResult (result : value) (page : KycPage) : Outcome KycPage :=
  match kyc_html result with
  | inl e => Threw e page
  | inr html =>
      Done (mkKycPage (kyc_world page) (full_name page) (doc_type page)
              (doc_number page) (Some html) true (kyc_requests page))
  end.

(** The request the listener builds from the three fields. *)
Definition kyc_request (page : KycPage) : JsonRequest :=
  mkJsonRequest (API_BASE_URL ++ "/kyc/verify") "POST" "application/json"
    (VObj [("full_name", VStr (full_name page));
           ("document_type", VStr (doc_type page));
           ("document_number", VStr (doc_number page))]).

(** The [try] block of the listener. *)
Definition kyc_submit_try (net : JsonNetwork) (page : KycPage) : Outcome KycPage :=
  let request := kyc_request page in
  let sent :=
    mkKycPage (kyc_world page) (full_name page) (doc_type page)
      (doc_number page) (kyc_result_content page) (kyc_result_shown page)
      (kyc_requests page ++ [request])%list in
  match net request with
  | None => Threw FetchRejected sent
  | Some Unparsable => Threw JsonRejected sent
  | Some (Parsed data) =>
      let read := on_world (showLoading false) sent in
      match prop data "success" with
      | inl e => Threw e read
      | inr success =>
          if truthy success then
            match prop data "data" with
            | inl e => Threw e read
            | inr result =>
                match displayKYCResult result read with
                | Threw e page' => Threw e page'
                | Done page' =>
                    Done (on_world
                            (showToast "Document verified successfully!" "success")
                            page')
                end
            end
          else
            match prop data "error" with
            | inl e => Threw e read
            | inr error =>
                match to_string error with
                | inl e => Threw e read
                | inr text =>
                    Done (on_world
                            (showToast ("Verification failed: " ++ text) "error")
                            read)
                end
            end
      end
  end.

(** The submit listener of [#kyc-form]. *)
Definition kyc_form_submit (net : JsonNetwork) (page : KycPage) : Outcome KycPage :=
  match kyc_submit_try net (on_world (showLoading true) page) with
  | Done page' => Done page'
  | Threw error page' =>
      Done (on_world
              (bind (showLoading false) (fun _ =>
               bind (console_error error) (fun _ =>
               showToast "Error verifying document" "error")))
              page')
  end.

Arguments kyc_html : simpl never.

(** ** Sample data *)

Definition id_123_jpg : File :=
  mkFile "id_123.jpg" "image/jpeg" [Byte.xff; Byte.xd8; Byte.xff; Byte.xe0].

Definition selfie_jpg : File :=
  mkFile "selfie.jpg" "image/jpeg" [Byte.xff; Byte.xd8; Byte.xff; Byte.xe1].

Definition num (q : Q) (text : string) : value := VNum (mkNumber q text).

Definition ocr_payload : value :=
  VObj [("document_type", VStr "passport");
        ("extracted_details",
           VObj [("name", VStr "A. Sample"); ("document_type", VStr "passport");
                 ("passport_number", VStr "X1234567"); ("address", VNull)]);
        ("ocr_confidence", num (915 # 10) "91.5");
        ("validation",
           VObj [("is_valid", VBool true); ("confidence_level", VStr "high");
                 ("issues", VArr [])]);
        ("raw_text", VStr "PASSPORT A. SAMPLE X1234567")].

Definition face_payload : value :=
  VObj [("comparison",
           VObj [("similarity_percentage", num (874 # 10) "87.4");
                 ("is_match", VBool true); ("confidence", num 93 "93")]);
        ("verification",
           VObj [("verdict", VStr "VERIFIED"); ("message", VStr "Faces match");
                 ("recommendation", VStr "Approve")]);
        ("age_analysis",
           VObj [("significant_gap", VBool true); ("age_gap", num 12 "12")]);
        ("feature_comparison",
           VObj [("eyes", VObj [("similarity", num 90 "90"); ("match", VBool true)]);
                 ("jaw_line", VObj [("similarity", num 55 "55"); ("match", VBool false)])])].

Definition respond (body : value) : Network := fun _ => Some (Parsed body).

Definition ok (payload : value) : value :=
  VObj [("success", VBool true); ("data", payload)].

Definition failed (message : string) : value :=
  VObj [("success", VBool false); ("error", VStr message)].

Definition offline : Network := fun _ => None.

Definition flagged_transaction : value :=
  VObj [("id", VStr "TXN-1042"); ("amount", num 75000 "75000");
        ("risk_level", VStr "HIGH"); ("risk_score", num 85 "85");
        ("flagged", VBool true)].

(** The same transaction without its risk level. *)
Definition unrated_transaction : value :=
  VObj [("id", VStr "TXN-1043"); ("amount", num 75000 "75000");
        ("risk_score", num 85 "85"); ("flagged", VBool true)].

Definition old_row (id : string) : Node TransactionRow :=
  ElementNode (mkTransactionRow false id (num 100 "100") "low" "12" false).

Definition high_alert : value :=
  VObj [("severity", VStr "HIGH"); ("transaction_id", VStr "TXN-1042");
        ("description", VStr "Amount far above the usual")].

Definition live_dashboard (tbody : list (Node TransactionRow)) : Live :=
  mkLive true (Some tbody) (Some [ElementNode (OtherElement "<p>No alerts</p>")])
    true [] 0.

(** * Properties *)

(** Unfolds the statements of the script down to functions on worlds. *)
Ltac js_unfold :=
  unfold processOCRAndContinue, processFaceComparison, displayCombinedResults,
    resetVerification, ocr_form_reset, selfie_form_reset,
    document_file_change, file_upload_area_drop, remove_file_btn_click,
    selfie_file_change, remove_selfie_btn_click, displayFilePreview,
    fetch, json, showToast, showLoading, console_error, goToStep,
    try_catch, bind, ret, throw, eval, read, write.

(** ** Effects *)

Lemma requests_app (l1 l2 : list Effect) :
  requests (l1 ++ l2)%list = (requests l1 ++ requests l2)%list.
Proof.
  induction l1 as [|e l1 IH]; [reflexivity|].
  destruct e; cbn; rewrite IH; reflexivity.
Qed.

Lemma error_toasts_app (l1 l2 : list Effect) :
  error_toasts (l1 ++ l2)%list = (error_toasts l1 ++ error_toasts l2)%list.
Proof.
  induction l1 as [|e l1 IH]; [reflexivity|].
  destruct e; cbn; try (rewrite IH; reflexivity).
  destruct (String.eqb type "error"); cbn; rewrite IH; reflexivity.
Qed.

Lemma skipn_length_app {A : Type} (l1 l2 : list A) :
  skipn (length l1) (l1 ++ l2)%list = l2.
Proof.
  induction l1 as [|x l1 IH]; [reflexivity | exact IH].
Qed.

Lemma new_requests_of_effects {A : Type} (c : M A) (w : World) (new : list Effect) :
  effects (world_of (c w)) = (effects w ++ new)%list ->
  new_requests c w = requests new.
Proof.
  intros Heff. unfold new_requests.
  rewrite Heff, requests_app. apply skipn_length_app.
Qed.

(** ** The three ways [processOCRAndContinue] ends *)

Lemma processOCRAndContinue_no_file (net : Network) (w : World) :
  document_file w = [] ->
  processOCRAndContinue net w =
  Normal tt (log (Toast select_file_text "error")
               (set_toast select_file_text true w)).
Proof.
  intros Hfiles. js_unfold. rewrite Hfiles. reflexivity.
Qed.

Lemma processOCRAndContinue_success
  (net : Network) (w : World) (file : File) (rest : list File) (data : value) :
  document_file w = file :: rest ->
  net (ocr_request file (doc_type_ocr w)) = Some (Parsed data) ->
  succeeded data = true ->
  exists payload,
    prop data "data" = inr payload /\
    processOCRAndContinue net w =
    Normal tt
      (set_step_shown 2
         (log (Toast ocr_done_text "success")
            (set_toast ocr_done_text true
               (set_ocrResult payload
                  (log (Loading false)
                     (set_loading_overlay false
                        (log (Fetch (ocr_request file (doc_type_ocr w)))
                           (log (Loading true)
                              (set_loading_overlay true w))))))))).
Proof.
  intros Hfiles Hnet Hok. unfold succeeded in Hok.
  destruct (prop data "success") as [e | success] eqn:Hsuccess; [discriminate|].
  destruct (prop data "data") as [e | payload] eqn:Hdata.
  - destruct data; cbn in Hsuccess, Hdata; discriminate.
  - exists payload. split; [reflexivity|].
    js_unfold. rewrite Hfiles. cbv beta iota.
    unfold ocr_request in Hnet. rewrite Hnet. cbn.
    rewrite Hsuccess. cbn. rewrite Hok. rewrite Hdata. reflexivity.
Qed.

Lemma processOCRAndContinue_failure
  (net : Network) (w : World) (file : File) (rest : list File) :
  document_file w = file :: rest ->
  request_failed (net (ocr_request file (doc_type_ocr w))) = true ->
  exists w' between message,
    processOCRAndContinue net w = Normal tt w' /\
    effects w' =
      (effects w ++
       [Loading true; Fetch (ocr_request file (doc_type_ocr w))] ++
       between ++ [Toast message "error"])%list /\
    requests between = [] /\
    error_toasts between = [] /\
    toast_text w' = message /\
    loading_overlay w' = false /\
    same_session w w'.
Proof.
  intros Hfiles Hfail. js_unfold. rewrite Hfiles. cbn.
  unfold ocr_request in Hfail.
  destruct (net _) as [[|data]|] eqn:Hnet; cbn in Hfail |- *.
  - eexists _, [Loading false; ConsoleError JsonRejected], _.
    split; [reflexivity|]. cbn. rewrite <- !app_assoc. repeat split.
  - unfold succeeded in Hfail.
    destruct (prop data "success") as [e | success] eqn:Hsuccess; cbn.
    + eexists _, [Loading false; Loading false; ConsoleError e], _.
      split; [reflexivity|]. cbn. rewrite <- !app_assoc. repeat split.
    + apply negb_true_iff in Hfail. rewrite Hfail.
      destruct (prop data "error") as [e | error] eqn:Herror; cbn.
      * eexists _, [Loading false; Loading false; ConsoleError e], _.
        split; [reflexivity|]. cbn. rewrite <- !app_assoc. repeat split.
      * destruct (to_string error) as [e | text]; cbn.
        -- eexists _, [Loading false; Loading false; ConsoleError e], _.
           split; [reflexivity|]. cbn. rewrite <- !app_assoc. repeat split.
        -- eexists _, [Loading false], _.
           split; [reflexivity|]. cbn. rewrite <- !app_assoc. repeat split.
  - eexists _, [Loading false; ConsoleError FetchRejected], _.
    split; [reflexivity|]. cbn. rewrite <- !app_assoc. repeat split.
Qed.

(** ** The ways [processFaceComparison] ends *)

Lemma processFaceComparison_no_document (net : Network) (w : World) :
  documentImageFile w = None ->
  processFaceComparison net w =
  Normal tt (set_step_shown 1
               (log (Toast document_missing_text "error")
                  (set_toast document_missing_text true w))).
Proof.
  intros Hdoc. js_unfold. rewrite Hdoc. reflexivity.
Qed.

Lemma processFaceComparison_no_selfie
  (net : Network) (w : World) (documentImage : File) :
  documentImageFile w = Some documentImage ->
  selfie_file w = [] ->
  processFaceComparison net w =
  Normal tt (log (Toast select_selfie_text "error")
               (set_toast select_selfie_text true w)).
Proof.
  intros Hdoc Hselfie. js_unfold. rewrite Hdoc, Hselfie. reflexivity.
Qed.

Lemma processFaceComparison_success
  (net : Network) (w : World) (documentImage selfieFile : File)
  (rest : list File) (data : value) :
  documentImageFile w = Some documentImage ->
  selfie_file w = selfieFile :: rest ->
  net (face_compare_request documentImage selfieFile) = Some (Parsed data) ->
  succeeded data = true ->
  exists payload,
    prop data "data" = inr payload /\
    processFaceComparison net w =
    match combined_html (ocrResult w) payload with
    | inr html =>
        Normal tt
          (set_step_shown 3
             (log (Toast verification_done_text "success")
                (set_toast verification_done_text true
                   (set_combined_results (Some html)
                      (compared w documentImage selfieFile)))))
    | inl e =>
        Normal tt
          (log (Toast compare_error_text "error")
             (set_toast compare_error_text true
                (log (ConsoleError e)
                   (log (Loading false)
                      (set_loading_overlay false
                         (compared w documentImage selfieFile))))))
    end.
Proof.
  intros Hdoc Hselfie Hnet Hok. unfold succeeded in Hok.
  destruct (prop data "success") as [e | success] eqn:Hsuccess; [discriminate|].
  destruct (prop data "data") as [e | payload] eqn:Hdata.
  - destruct data; cbn in Hsuccess, Hdata; discriminate.
  - exists payload. split; [reflexivity|].
    js_unfold. rewrite Hdoc, Hselfie. cbv beta iota.
    unfold face_compare_request in Hnet. rewrite Hnet. cbn.
    rewrite Hsuccess. cbn. rewrite Hok. rewrite Hdata. cbn.
    destruct (combined_html (ocrResult w) payload); reflexivity.
Qed.

Lemma processFaceComparison_failure
  (net : Network) (w : World) (documentImage selfieFile : File)
  (rest : list File) :
  documentImageFile w = Some documentImage ->
  selfie_file w = selfieFile :: rest ->
  request_failed (net (face_compare_request documentImage selfieFile)) = true ->
  exists w' between message,
    processFaceComparison net w = Normal tt w' /\
    effects w' =
      (effects w ++
       [Loading true; Fetch (face_compare_request documentImage selfieFile)] ++
       between ++ [Toast message "error"])%list /\
    requests between = [] /\
    error_toasts between = [] /\
    toast_text w' = message /\
    loading_overlay w' = false /\
    same_session w w'.
Proof.
  intros Hdoc Hselfie Hfail. js_unfold. rewrite Hdoc, Hselfie. cbn.
  unfold face_compare_request in Hfail.
  destruct (net _) as [[|data]|] eqn:Hnet; cbn in Hfail |- *.
  - eexists _, [Loading false; ConsoleError JsonRejected], _.
    split; [reflexivity|]. cbn. rewrite <- !app_assoc. repeat split.
  - unfold succeeded in Hfail.
    destruct (prop data "success") as [e | success] eqn:Hsuccess; cbn.
    + eexists _, [Loading false; Loading false; ConsoleError e], _.
      split; [reflexivity|]. cbn. rewrite <- !app_assoc. repeat split.
    + apply negb_true_iff in Hfail. rewrite Hfail.
      destruct (prop data "error") as [e | error] eqn:Herror; cbn.
      * eexists _, [Loading false; Loading false; ConsoleError e], _.
        split; [reflexivity|]. cbn. rewrite <- !app_assoc. repeat split.
      * destruct (to_string error) as [e | text]; cbn.
        -- eexists _, [Loading false; Loading false; ConsoleError e], _.
           split; [reflexivity|]. cbn. rewrite <- !app_assoc. repeat split.
        -- eexists _, [Loading false], _.
           split; [reflexivity|]. cbn. rewrite <- !app_assoc. repeat split.
  - eexists _, [Loading false; ConsoleError FetchRejected], _.
    split; [reflexivity|]. cbn. rewrite <- !app_assoc. repeat split.
Qed.

Lemma answer_cases (answer : option Response) :
  request_failed answer = true \/
  exists data, answer = Some (Parsed data) /\ succeeded data = true.
Proof.
  destruct answer as [[|data]|]; cbn; auto.
  destruct (succeeded data) eqn:Hok; [right | left; reflexivity].
  exists data. split; [reflexivity | assumption].
Qed.

(** ** Submitting a selfie without a document *)

(** C1.  Whenever [processFaceComparison] runs while the stored document
    image is absent, whatever is attached to the selfie input and whatever
    the network would answer: it returns normally, its only effect is one
    error notification (the document-missing text), so that no request is
    issued, step 1 is on display afterwards, and the two variables, the
    selfie input and the rendered result are as before. *)
Theorem C1_selfie_without_document (net : Network) (w : World) :
  documentImageFile w = None ->
  exists w' new,
    processFaceComparison net w = Normal tt w' /\
    effects w' = (effects w ++ new)%list /\
    new = [Toast document_missing_text "error"] /\
    error_toasts new = [document_missing_text] /\
    requests new = [] /\
    new_requests (processFaceComparison net) w = [] /\
    step_shown w' = 1 /\
    toast_text w' = document_missing_text /\
    ocrResult w' = ocrResult w /\
    documentImageFile w' = None /\
    selfie_file w' = selfie_file w /\
    combined_results w' = combined_results w.
Proof.
  intros Hdoc. eexists _, _. split.
  - apply processFaceComparison_no_document; assumption.
  - rewrite (new_requests_of_effects (processFaceComparison net) w
               [Toast document_missing_text "error"])
      by (rewrite (processFaceComparison_no_document net w Hdoc); reflexivity).
    cbn. repeat split; assumption.
Qed.

(** A session that lost its document image at step 2: the document was
    processed, then removed, and a selfie is attached. *)
Lemma C1_selfie_without_document_witness :
  let w := run [DocumentFileChange [id_123_jpg];
                OcrFormSubmit (respond (ok ocr_payload));
                RemoveFileBtnClick;
                SelfieFileChange [selfie_jpg]] (page_loaded "passport") in
  let net := respond (ok face_payload) in
  (documentImageFile w = None /\ selfie_file w = [selfie_jpg] /\ step_shown w = 2) /\
  exists w' new,
    processFaceComparison net w = Normal tt w' /\
    effects w' = (effects w ++ new)%list /\
    new = [Toast document_missing_text "error"] /\
    error_toasts new = [document_missing_text] /\
    requests new = [] /\
    new_requests (processFaceComparison net) w = [] /\
    step_shown w' = 1 /\
    toast_text w' = document_missing_text /\
    ocrResult w' = ocrResult w /\
    documentImageFile w' = None /\
    selfie_file w' = selfie_file w /\
    combined_results w' = combined_results w.
Proof.
  intros w net. split; [repeat split|].
  apply (C1_selfie_without_document net w). reflexivity.
Defined.

(** C10.  When [processFaceComparison] runs with neither a stored document
    image nor a selfie attached, the document check comes first: the only
    effect is the document-missing error notification, so that neither a
    select-a-selfie notification nor a request is made, and step 1 is on
    display afterwards. *)
Theorem C10_document_check_first (net : Network) (w : World) :
  documentImageFile w = None ->
  selfie_file w = [] ->
  exists w' new,
    processFaceComparison net w = Normal tt w' /\
    effects w' = (effects w ++ new)%list /\
    new = [Toast document_missing_text "error"] /\
    (forall type, ~ In (Toast select_selfie_text type) new) /\
    requests new = [] /\
    step_shown w' = 1 /\
    toast_text w' = document_missing_text.
Proof.
  intros Hdoc _. eexists _, _. split.
  - apply processFaceComparison_no_document; assumption.
  - cbn. repeat split.
    intros type [H | []]. discriminate H.
Qed.

Lemma C10_document_check_first_witness :
  let w := run [DocumentFileChange [id_123_jpg];
                OcrFormSubmit (respond (ok ocr_payload));
                RemoveFileBtnClick] (page_loaded "passport") in
  (documentImageFile w = None /\ selfie_file w = [] /\ step_shown w = 2) /\
  exists w' new,
    processFaceComparison offline w = Normal tt w' /\
    effects w' = (effects w ++ new)%list /\
    new = [Toast document_missing_text "error"] /\
    (forall type, ~ In (Toast select_selfie_text type) new) /\
    requests new = [] /\
    step_shown w' = 1 /\
    toast_text w' = document_missing_text.
Proof.
  intros w. split; [repeat split|].
  apply (C10_document_check_first offline w); reflexivity.
Defined.

(** ** Failed requests *)

(** C5.  When [processOCRAndContinue] issues its request (a file is
    attached) and the request fails -- [fetch] rejects, the body is no JSON,
    or the body does not have a true [success] -- the function returns
    normally (nothing is thrown out of it), exactly one request was made,
    exactly one error notification is emitted, the overlay is taken away,
    and the session is as before: the step on display (1 if it was 1),
    [ocrResult] (null if it was null), the stored document image, the
    attachments and the rendered result. *)
Theorem C5_failed_ocr_leaves_session
  (net : Network) (w : World) (file : File) (rest : list File) :
  document_file w = file :: rest ->
  request_failed (net (ocr_request file (doc_type_ocr w))) = true ->
  exists w' new message,
    processOCRAndContinue net w = Normal tt w' /\
    returns (processOCRAndContinue net w) = true /\
    effects w' = (effects w ++ new)%list /\
    requests new = [ocr_request file (doc_type_ocr w)] /\
    error_toasts new = [message] /\
    toast_text w' = message /\
    loading_overlay w' = false /\
    same_session w w' /\
    (step_shown w = 1 -> step_shown w' = 1) /\
    (ocrResult w = VNull -> ocrResult w' = VNull).
Proof.
  intros Hfiles Hfail.
  destruct (processOCRAndContinue_failure net w file rest Hfiles Hfail)
    as (w' & between & message & Hrun & Heff & Hreq & Htoasts & Htext & Hload & Hsame).
  exists w',
    ([Loading true; Fetch (ocr_request file (doc_type_ocr w))] ++
     between ++ [Toast message "error"])%list, message.
  rewrite Hrun.
  split; [reflexivity|]. split; [reflexivity|]. split; [exact Heff|].
  rewrite !requests_app, !error_toasts_app, Hreq, Htoasts.
  repeat split; try assumption; try apply Hsame.
  - destruct Hsame as (_ & _ & _ & _ & _ & Hstep & _). congruence.
  - destruct Hsame as (Hocr & _). congruence.
Qed.

(** The backend is down while the first document is submitted. *)
Lemma C5_failed_ocr_leaves_session_witness :
  let w := run [DocumentFileChange [id_123_jpg]] (page_loaded "passport") in
  exists w' new message,
    processOCRAndContinue offline w = Normal tt w' /\
    returns (processOCRAndContinue offline w) = true /\
    effects w' = (effects w ++ new)%list /\
    requests new = [ocr_request id_123_jpg (doc_type_ocr w)] /\
    error_toasts new = [message] /\
    toast_text w' = message /\
    loading_overlay w' = false /\
    same_session w w' /\
    (step_shown w = 1 -> step_shown w' = 1) /\
    (ocrResult w = VNull -> ocrResult w' = VNull).
Proof.
  intros w.
  apply (C5_failed_ocr_leaves_session offline w id_123_jpg []); reflexivity.
Defined.

(** C6.  When [processFaceComparison] issues its request and the body that
    comes back has a [success] that is not true and a string [error], the
    function returns normally, the step on display is as before (2 if it
    was 2), one error notification is emitted, whose text is
    ["Face comparison failed: "] followed by that string, and the session --
    both variables, the attachments, the rendered result -- is as before. *)
Theorem C6_failed_comparison_reports_message
  (net : Network) (w : World) (documentImage selfieFile : File)
  (rest : list File) (data : value) (message : string) :
  documentImageFile w = Some documentImage ->
  selfie_file w = selfieFile :: rest ->
  net (face_compare_request documentImage selfieFile) = Some (Parsed data) ->
  succeeded data = false ->
  prop data "error" = inr (VStr message) ->
  exists w',
    processFaceComparison net w = Normal tt w' /\
    effects w' =
      (effects w ++
       [Loading true; Fetch (face_compare_request documentImage selfieFile);
        Loading false;
        Toast ("Face comparison failed: " ++ message) "error"])%list /\
    toast_text w' = "Face comparison failed: " ++ message /\
    same_session w w' /\
    (step_shown w = 2 -> step_shown w' = 2).
Proof.
  intros Hdoc Hselfie Hnet Hfail Herror.
  unfold succeeded in Hfail.
  destruct (prop data "success") as [e | success] eqn:Hsuccess.
  - destruct data; cbn in Hsuccess, Herror; discriminate.
  - eexists. split.
    + js_unfold. rewrite Hdoc, Hselfie. cbv beta iota.
      unfold face_compare_request in Hnet. rewrite Hnet. cbn.
      rewrite Hsuccess. cbn. rewrite Hfail, Herror. cbn. reflexivity.
    + cbn. rewrite <- !app_assoc. repeat split. intros H; exact H.
Qed.

(** The scenario of the face that is not detected. *)
Lemma C6_failed_comparison_reports_message_witness :
  let w := run [DocumentFileChange [id_123_jpg];
                OcrFormSubmit (respond (ok ocr_payload));
                SelfieFileChange [selfie_jpg]] (page_loaded "passport") in
  let net := respond (failed "face not detected") in
  step_shown w = 2 /\
  exists w',
    processFaceComparison net w = Normal tt w' /\
    effects w' =
      (effects w ++
       [Loading true; Fetch (face_compare_request id_123_jpg selfie_jpg);
        Loading false;
        Toast ("Face comparison failed: " ++ "face not detected") "error"])%list /\
    toast_text w' = "Face comparison failed: " ++ "face not detected" /\
    same_session w w' /\
    (step_shown w = 2 -> step_shown w' = 2).
Proof.
  intros w net. split; [reflexivity|].
  apply (C6_failed_comparison_reports_message net w id_123_jpg selfie_jpg []
           (failed "face not detected") "face not detected"); reflexivity.
Defined.

(** ** Successful requests *)

Lemma and_then_inl {A B : Type} (r : Exn + A) (k : A -> Exn + B) :
  (forall a, exists e, k a = inl e) -> exists e, and_then r k = inl e.
Proof.
  intros Hk. destruct r as [e | a]; cbn; [exists e; reflexivity | apply Hk].
Qed.

(** Without an OCR result there is nothing to render. *)
Lemma combined_html_without_ocr (ocrData faceData : value) :
  nullish ocrData = true -> exists e, combined_html ocrData faceData = inl e.
Proof.
  intros Hnull. unfold combined_html.
  destruct ocrData; try discriminate Hnull;
    repeat first [ solve [eexists; reflexivity] | apply and_then_inl; intros ? ].
Qed.

(** C3, as the code has it.  When [processFaceComparison] issues its request
    and the body that comes back has a true [success], the function returns
    normally having made that one request and left both variables alone, and
    what follows depends on whether [displayCombinedResults] can render the
    [data] of the body together with [ocrResult]:
    - if it can, the markup is written to [#combined-results] (which is the
      only place the comparison result is kept), a success notification is
      emitted and step 3 is on display, a later step than 2;
    - if it throws, as it does whenever [ocrResult] is null or undefined,
      the exception is caught: nothing is written, the step on display is
      as before and the ["Error comparing faces"] error notification is
      emitted. *)
Theorem C3_successful_comparison
  (net : Network) (w : World) (documentImage selfieFile : File)
  (rest : list File) (data : value) :
  documentImageFile w = Some documentImage ->
  selfie_file w = selfieFile :: rest ->
  net (face_compare_request documentImage selfieFile) = Some (Parsed data) ->
  succeeded data = true ->
  exists payload w',
    prop data "data" = inr payload /\
    processFaceComparison net w = Normal tt w' /\
    new_requests (processFaceComparison net) w =
      [face_compare_request documentImage selfieFile] /\
    ocrResult w' = ocrResult w /\
    documentImageFile w' = documentImageFile w /\
    (nullish (ocrResult w) = true ->
     exists e, combined_html (ocrResult w) payload = inl e) /\
    match combined_html (ocrResult w) payload with
    | inr html =>
        combined_results w' = Some html /\
        step_shown w' = 3 /\
        (step_shown w = 2 -> step_shown w < step_shown w') /\
        toast_text w' = verification_done_text /\
        effects w' =
          (effects w ++
           [Loading true; Fetch (face_compare_request documentImage selfieFile);
            Loading false; Toast verification_done_text "success"])%list
    | inl e =>
        combined_results w' = combined_results w /\
        step_shown w' = step_shown w /\
        toast_text w' = compare_error_text /\
        effects w' =
          (effects w ++
           [Loading true; Fetch (face_compare_request documentImage selfieFile);
            Loading false; Loading false; ConsoleError e;
            Toast compare_error_text "error"])%list
    end.
Proof.
  intros Hdoc Hselfie Hnet Hok.
  destruct (processFaceComparison_success net w documentImage selfieFile rest
              data Hdoc Hselfie Hnet Hok) as (payload & Hdata & Hrun).
  exists payload.
  destruct (combined_html (ocrResult w) payload) as [e | html] eqn:Hhtml;
    eexists; (split; [exact Hdata|]); (split; [exact Hrun|]).
  - split.
    { apply new_requests_of_effects with
        (new := [Loading true; Fetch (face_compare_request documentImage selfieFile);
                 Loading false; Loading false; ConsoleError e;
                 Toast compare_error_text "error"]).
      rewrite Hrun. cbn. rewrite <- !app_assoc. reflexivity. }
    cbn. rewrite <- !app_assoc. repeat split.
    intros _. exists e. reflexivity.
  - split.
    { apply new_requests_of_effects with
        (new := [Loading true; Fetch (face_compare_request documentImage selfieFile);
                 Loading false; Toast verification_done_text "success"]).
      rewrite Hrun. cbn. rewrite <- !app_assoc. reflexivity. }
    cbn. rewrite <- !app_assoc. repeat split.
    + intros Hnull.
      destruct (combined_html_without_ocr (ocrResult w) payload Hnull) as [e He].
      congruence.
    + intros Hstep. rewrite Hstep. lia.
Qed.

(** The whole flow on a document and a matching selfie. *)
Lemma C3_successful_comparison_witness :
  let w := run [DocumentFileChange [id_123_jpg];
                OcrFormSubmit (respond (ok ocr_payload));
                SelfieFileChange [selfie_jpg]] (page_loaded "passport") in
  let net := respond (ok face_payload) in
  step_shown w = 2 /\
  exists w',
    processFaceComparison net w = Normal tt w' /\
    step_shown w' = 3 /\
    combined_results w' <> None /\
    toast_text w' = verification_done_text.
Proof.
  intros w net. split; [reflexivity|].
  destruct (C3_successful_comparison net w id_123_jpg selfie_jpg []
              (ok face_payload) eq_refl eq_refl eq_refl eq_refl)
    as (payload & w' & Hdata & Hrun & _ & _ & _ & _ & Hcase).
  exists w'. split; [exact Hrun|].
  injection Hdata as <-.
  change (combined_html (ocrResult w) face_payload)
    with (combined_html ocr_payload face_payload) in Hcase.
  destruct (combined_html ocr_payload face_payload) as [e | html] eqn:Hhtml;
    [vm_compute in Hhtml; discriminate Hhtml|].
  destruct Hcase as (Hres & Hstep & _ & Htoast & _).
  repeat split; try assumption. rewrite Hres. discriminate.
Defined.

(** Two sessions in which the comparison request comes back with a true
    [success] and step 3 is not reached.  In the first, step 2 is on display
    and the body has no [data]; in the second the OCR request failed, so that
    [ocrResult] is still null while the document image is stored, and the
    body is complete.  In both the comparison is reported as an error and
    nothing is rendered. *)
Lemma C3_successful_comparison_counterexample :
  (let w := run [DocumentFileChange [id_123_jpg];
                 OcrFormSubmit (respond (ok ocr_payload));
                 SelfieFileChange [selfie_jpg]] (page_loaded "passport") in
   let body := VObj [("success", VBool true)] in
   let w' := world_of (processFaceComparison (respond body) w) in
   prop body "success" = inr (VBool true) /\
   requests (effects w') =
     (requests (effects w) ++ [face_compare_request id_123_jpg selfie_jpg])%list /\
   step_shown w = 2 /\
   step_shown w' = 2 /\
   combined_results w' = None /\
   toast_text w' = compare_error_text) /\
  (let w := run [DocumentFileChange [id_123_jpg];
                 OcrFormSubmit (respond (failed "unreadable document"));
                 SelfieFileChange [selfie_jpg]] (page_loaded "passport") in
   let body := ok face_payload in
   let w' := world_of (processFaceComparison (respond body) w) in
   prop body "success" = inr (VBool true) /\
   requests (effects w') =
     (requests (effects w) ++ [face_compare_request id_123_jpg selfie_jpg])%list /\
   ocrResult w = VNull /\
   step_shown w' = 1 /\
   combined_results w' = None /\
   toast_text w' = compare_error_text).
Proof.
  split; vm_compute; repeat split.
Qed.

(** ** What one event changes *)

(** What [processOCRAndContinue] leaves alone, and the two things it can do
    to the step and to [ocrResult]. *)
Lemma processOCRAndContinue_frame (net : Network) (w : World) :
  let w' := world_of (processOCRAndContinue net w) in
  document_file w' = document_file w /\
  documentImageFile w' = documentImageFile w /\
  selfie_file w' = selfie_file w /\
  combined_results w' = combined_results w /\
  ((step_shown w' = step_shown w /\ ocrResult w' = ocrResult w) \/
   (step_shown w' = 2 /\
    exists file rest data,
      document_file w = file :: rest /\
      net (ocr_request file (doc_type_ocr w)) = Some (Parsed data) /\
      succeeded data = true /\
      prop data "data" = inr (ocrResult w'))).
Proof.
  intros w'. subst w'.
  destruct (document_file w) as [|file rest] eqn:Hfiles.
  - rewrite (processOCRAndContinue_no_file net w Hfiles). cbn.
    repeat split; auto.
  - destruct (answer_cases (net (ocr_request file (doc_type_ocr w))))
      as [Hfail | (data & Hnet & Hok)].
    + destruct (processOCRAndContinue_failure net w file rest Hfiles Hfail)
        as (w' & _ & _ & Hrun & _ & _ & _ & _ & _ & Hsame).
      rewrite Hrun. cbn. rewrite <- Hfiles.
      destruct Hsame as (Hocr & Hdoc & Hfile & _ & Hselfie & Hstep & Hres).
      repeat split; auto.
    + destruct (processOCRAndContinue_success net w file rest data Hfiles Hnet Hok)
        as (payload & Hdata & Hrun).
      rewrite Hrun. cbn. repeat split; auto.
      right. split; [reflexivity|]. exists file, rest, data. auto.
Qed.

(** What [processFaceComparison] leaves alone, and the three things it can
    do to the step. *)
Lemma processFaceComparison_frame (net : Network) (w : World) :
  let w' := world_of (processFaceComparison net w) in
  document_file w' = document_file w /\
  documentImageFile w' = documentImageFile w /\
  selfie_file w' = selfie_file w /\
  ocrResult w' = ocrResult w /\
  (step_shown w' = step_shown w \/
   (step_shown w' = 1 /\ documentImageFile w = None) \/
   (step_shown w' = 3 /\ answered_with_success w (SelfieFormSubmit net))).
Proof.
  intros w'. subst w'.
  destruct (documentImageFile w) as [documentImage|] eqn:Hdoc.
  - destruct (selfie_file w) as [|selfieFile rest] eqn:Hselfie.
    + rewrite (processFaceComparison_no_selfie net w documentImage Hdoc Hselfie).
      cbn. repeat split; auto.
    + destruct (answer_cases (net (face_compare_request documentImage selfieFile)))
        as [Hfail | (data & Hnet & Hok)].
      * destruct (processFaceComparison_failure net w documentImage selfieFile
                    rest Hdoc Hselfie Hfail)
          as (w' & _ & _ & Hrun & _ & _ & _ & _ & _ & Hsame).
        rewrite Hrun. cbn. rewrite <- Hdoc, <- Hselfie.
        destruct Hsame as (Hocr & Hd & Hfile & _ & Hs & Hstep & _).
        repeat split; auto.
      * destruct (processFaceComparison_success net w documentImage selfieFile
                    rest data Hdoc Hselfie Hnet Hok) as (payload & Hdata & Hrun).
        rewrite Hrun.
        destruct (combined_html (ocrResult w) payload); cbn; repeat split; auto.
        right; right. split; [reflexivity|].
        exists documentImage, selfieFile, rest, data. auto.
  - rewrite (processFaceComparison_no_document net w Hdoc). cbn.
    repeat split; auto.
Qed.

Lemma dispatch_attached_is_stored (w : World) (ev : Event) :
  attached_is_stored w -> attached_is_stored (dispatch w ev).
Proof.
  unfold attached_is_stored, dispatch. intros Hinv file rest.
  destruct ev; cbn [listener].
  - destruct files as [|f fs]; cbn; [discriminate | congruence].
  - destruct files as [|f fs]; cbn; [apply Hinv|].
    destruct (String.prefix "image/" (file_type f)); cbn;
      [congruence | apply Hinv].
  - cbn. discriminate.
  - cbn. apply Hinv.
  - cbn. apply Hinv.
  - destruct (processOCRAndContinue_frame net w) as (Hfile & Hdoc & _).
    rewrite Hfile, Hdoc. apply Hinv.
  - cbn. apply Hinv.
  - cbn. apply Hinv.
  - cbn. apply Hinv.
  - destruct (processFaceComparison_frame net w) as (Hfile & Hdoc & _).
    rewrite Hfile, Hdoc. apply Hinv.
  - cbn. discriminate.
  - cbn. apply Hinv.
Qed.

Lemma reachable_attached_is_stored (w : World) :
  reachable w -> attached_is_stored w.
Proof.
  induction 1 as [d | w ev _ IH].
  - intros file rest H. discriminate H.
  - apply dispatch_attached_is_stored; assumption.
Qed.

Lemma reachable_run (evs : list Event) (w : World) :
  reachable w -> reachable (run evs w).
Proof.
  revert w. induction evs as [|ev evs IH]; intros w Hw; [exact Hw|].
  cbn. apply IH. constructor. exact Hw.
Qed.

(** C4, as the code has it.  In the state reached by any sequence of events,
    when [processOCRAndContinue] issues its request and the body that comes
    back has a true [success], the function returns
    normally, [ocrResult] is the [data] of that body (so it is populated
    whenever the body carries a [data] that is not null), a success
    notification is emitted, step 2 is on display (a later step than 1), and
    the file that was attached is still attached and is the stored document
    image. *)
Theorem C4_successful_ocr
  (d : string) (evs : list Event) (net : Network)
  (file : File) (rest : list File) (data : value) :
  let w := run evs (page_loaded d) in
  document_file w = file :: rest ->
  net (ocr_request file (doc_type_ocr w)) = Some (Parsed data) ->
  succeeded data = true ->
  exists payload w',
    prop data "data" = inr payload /\
    processOCRAndContinue net w = Normal tt w' /\
    ocrResult w' = payload /\
    (nullish payload = false -> nullish (ocrResult w') = false) /\
    step_shown w' = 2 /\
    (step_shown w = 1 -> step_shown w < step_shown w') /\
    documentImageFile w' = Some file /\
    document_file w' = file :: rest /\
    effects w' =
      (effects w ++
       [Loading true; Fetch (ocr_request file (doc_type_ocr w));
        Loading false; Toast ocr_done_text "success"])%list.
Proof.
  intros w Hfiles Hnet Hok.
  assert (Hreach : reachable w) by (apply reachable_run; constructor).
  destruct (processOCRAndContinue_success net w file rest data Hfiles Hnet Hok)
    as (payload & Hdata & Hrun).
  exists payload. eexists. split; [exact Hdata|]. split; [exact Hrun|].
  cbn. rewrite <- !app_assoc. repeat split; auto.
  - intros Hstep. rewrite Hstep. lia.
  - exact (reachable_attached_is_stored w Hreach file rest Hfiles).
Qed.

(** The scenario of the passport image. *)
Lemma C4_successful_ocr_witness :
  let w := run [DocumentFileChange [id_123_jpg]] (page_loaded "passport") in
  let net := respond (ok ocr_payload) in
  (step_shown w = 1 /\ ocrResult w = VNull) /\
  exists payload w',
    prop (ok ocr_payload) "data" = inr payload /\
    processOCRAndContinue net w = Normal tt w' /\
    ocrResult w' = payload /\
    (nullish payload = false -> nullish (ocrResult w') = false) /\
    step_shown w' = 2 /\
    (step_shown w = 1 -> step_shown w < step_shown w') /\
    documentImageFile w' = Some id_123_jpg /\
    document_file w' = [id_123_jpg] /\
    effects w' =
      (effects w ++
       [Loading true; Fetch (ocr_request id_123_jpg (doc_type_ocr w));
        Loading false; Toast ocr_done_text "success"])%list.
Proof.
  intros w net. split; [split; reflexivity|].
  apply (C4_successful_ocr "passport" [DocumentFileChange [id_123_jpg]] net
           id_123_jpg [] (ok ocr_payload)); reflexivity.
Defined.

(** A body with a true [success] and no [data]: step 2 is shown with
    [ocrResult] undefined. *)
Lemma C4_successful_ocr_counterexample :
  let w := run [DocumentFileChange [id_123_jpg]] (page_loaded "passport") in
  let body := VObj [("success", VBool true)] in
  let w' := world_of (processOCRAndContinue (respond body) w) in
  prop body "success" = inr (VBool true) /\
  requests (effects w') = [ocr_request id_123_jpg "passport"] /\
  step_shown w' = 2 /\
  ocrResult w' = VUndefined /\
  nullish (ocrResult w') = true.
Proof.
  vm_compute. repeat split.
Qed.

(** ** When requests are issued *)

Lemma new_requests_processOCRAndContinue (net : Network) (w : World) :
  new_requests (processOCRAndContinue net) w =
  match document_file w with
  | file :: _ => [ocr_request file (doc_type_ocr w)]
  | [] => []
  end.
Proof.
  destruct (document_file w) as [|file rest] eqn:Hfiles.
  - apply new_requests_of_effects with (new := [Toast select_file_text "error"]).
    rewrite (processOCRAndContinue_no_file net w Hfiles). reflexivity.
  - destruct (answer_cases (net (ocr_request file (doc_type_ocr w))))
      as [Hfail | (data & Hnet & Hok)].
    + destruct (processOCRAndContinue_failure net w file rest Hfiles Hfail)
        as (w' & between & message & Hrun & Heff & Hreq & _).
      rewrite (new_requests_of_effects (processOCRAndContinue net) w _
                 ltac:(rewrite Hrun; exact Heff)).
      rewrite !requests_app, Hreq. reflexivity.
    + destruct (processOCRAndContinue_success net w file rest data Hfiles Hnet Hok)
        as (payload & _ & Hrun).
      apply new_requests_of_effects with
        (new := [Loading true; Fetch (ocr_request file (doc_type_ocr w));
                 Loading false; Toast ocr_done_text "success"]).
      rewrite Hrun. cbn. rewrite <- !app_assoc. reflexivity.
Qed.

Lemma new_requests_processFaceComparison (net : Network) (w : World) :
  new_requests (processFaceComparison net) w =
  match documentImageFile w, selfie_file w with
  | Some documentImage, selfieFile :: _ =>
      [face_compare_request documentImage selfieFile]
  | _, _ => []
  end.
Proof.
  destruct (documentImageFile w) as [documentImage|] eqn:Hdoc.
  - destruct (selfie_file w) as [|selfieFile rest] eqn:Hselfie.
    + apply new_requests_of_effects with (new := [Toast select_selfie_text "error"]).
      rewrite (processFaceComparison_no_selfie net w documentImage Hdoc Hselfie).
      reflexivity.
    + destruct (answer_cases (net (face_compare_request documentImage selfieFile)))
        as [Hfail | (data & Hnet & Hok)].
      * destruct (processFaceComparison_failure net w documentImage selfieFile
                    rest Hdoc Hselfie Hfail)
          as (w' & between & message & Hrun & Heff & Hreq & _).
        rewrite (new_requests_of_effects (processFaceComparison net) w _
                   ltac:(rewrite Hrun; exact Heff)).
        rewrite !requests_app, Hreq. reflexivity.
      * destruct (processFaceComparison_success net w documentImage selfieFile
                    rest data Hdoc Hselfie Hnet Hok) as (payload & _ & Hrun).
        destruct (combined_html (ocrResult w) payload) as [e | html].
        -- apply new_requests_of_effects with
             (new := [Loading true;
                      Fetch (face_compare_request documentImage selfieFile);
                      Loading false; Loading false; ConsoleError e;
                      Toast compare_error_text "error"]).
           rewrite Hrun. cbn. rewrite <- !app_assoc. reflexivity.
        -- apply new_requests_of_effects with
             (new := [Loading true;
                      Fetch (face_compare_request documentImage selfieFile);
                      Loading false; Toast verification_done_text "success"]).
           rewrite Hrun. cbn. rewrite <- !app_assoc. reflexivity.
  - apply new_requests_of_effects with
      (new := [Toast document_missing_text "error"]).
    rewrite (processFaceComparison_no_document net w Hdoc). reflexivity.
Qed.

(** C9, as the code has it.  [processOCRAndContinue] issues its request
    exactly when a file is attached to the document input, whatever the size
    and the declared type of that file, and the request carries that file
    and the chosen document type as it is.  With no file attached it makes no
    request, emits the select-a-file error notification and leaves the
    session, step included, as it was.  The drop listener accepts a drop
    exactly when the first dropped file has a declared type that begins with
    ["image/"]: then all the dropped files are attached, of which only the
    first was looked at, the first is stored as the document image, no
    notification is emitted, and the file a submission sends next is that
    first file.  Otherwise (nothing dropped, or a first file of another type)
    it attaches nothing, leaves the session as it was and emits the
    ["Please upload an image file"] error notification. *)
Theorem C9_ocr_request_when_file_attached
  (net : Network) (w : World) (dropped : list File) :
  new_requests (processOCRAndContinue net) w =
    match document_file w with
    | file :: _ =>
        [mkRequest (API_BASE_URL ++ "/kyc/ocr") "POST"
           [("document", FormFile file);
            ("document_type", FormText (doc_type_ocr w))]]
    | [] => []
    end /\
  (document_file w = [] ->
   exists w',
     processOCRAndContinue net w = Normal tt w' /\
     effects w' = (effects w ++ [Toast select_file_text "error"])%list /\
     same_session w w') /\
  (let w' := dispatch w (FileUploadAreaDrop dropped) in
   (exists file rest,
      dropped = file :: rest /\
      String.prefix "image/" (file_type file) = true /\
      document_file w' = file :: rest /\
      documentImageFile w' = Some file /\
      effects w' = effects w /\
      toast_text w' = toast_text w /\
      (ocrResult w' = ocrResult w /\ selfie_file w' = selfie_file w /\
       doc_type_ocr w' = doc_type_ocr w /\ step_shown w' = step_shown w /\
       combined_results w' = combined_results w) /\
      new_requests (processOCRAndContinue net) w' =
        [mkRequest (API_BASE_URL ++ "/kyc/ocr") "POST"
           [("document", FormFile file);
            ("document_type", FormText (doc_type_ocr w))]]) \/
   ((dropped = [] \/
     exists file rest,
       dropped = file :: rest /\
       String.prefix "image/" (file_type file) = false) /\
    same_session w w' /\
    effects w' =
      (effects w ++ [Toast "Please upload an image file" "error"])%list /\
    error_toasts (new_effects (listener (FileUploadAreaDrop dropped)) w) =
      ["Please upload an image file"] /\
    toast_text w' = "Please upload an image file" /\
    toast_show w' = true)).
Proof.
  split; [apply new_requests_processOCRAndContinue|]. split.
  - intros Hfiles. eexists. split.
    + apply processOCRAndContinue_no_file; assumption.
    + cbn. repeat split.
  - cbv zeta. rewrite new_requests_processOCRAndContinue.
    unfold new_effects, dispatch. cbn [listener].
    destruct dropped as [|file rest]; cbn.
    + right. rewrite skipn_length_app. repeat split. left. reflexivity.
    + destruct (String.prefix "image/" (file_type file)) eqn:Himage; cbn.
      * left. exists file, rest. repeat split. exact Himage.
      * right. rewrite skipn_length_app. repeat split.
        right. exists file, rest. split; [reflexivity | exact Himage].
Qed.

(** Submitting with nothing attached; dropping a file that is no image; and
    dropping an image together with a program. *)
Lemma C9_ocr_request_when_file_attached_witness :
  let w := page_loaded "passport" in
  let notes := mkFile "notes.txt" "text/plain" [Byte.x68; Byte.x69] in
  let tool := mkFile "tool.exe" "application/x-msdownload" [Byte.x4d; Byte.x5a] in
  document_file w = [] /\
  new_requests (processOCRAndContinue offline) w = [] /\
  (exists w',
     processOCRAndContinue offline w = Normal tt w' /\
     effects w' = (effects w ++ [Toast select_file_text "error"])%list /\
     same_session w w') /\
  (document_file (dispatch w (FileUploadAreaDrop [notes])) = [] /\
   effects (dispatch w (FileUploadAreaDrop [notes])) =
     [Toast "Please upload an image file" "error"]) /\
  (document_file (dispatch w (FileUploadAreaDrop [id_123_jpg; tool])) =
     [id_123_jpg; tool] /\
   new_requests (processOCRAndContinue offline)
     (dispatch w (FileUploadAreaDrop [id_123_jpg; tool])) =
     [ocr_request id_123_jpg "passport"]).
Proof.
  intros w notes tool.
  destruct (C9_ocr_request_when_file_attached offline w [notes])
    as (Hreq & Hnone & Hdrop).
  destruct (C9_ocr_request_when_file_attached offline w [id_123_jpg; tool])
    as (_ & _ & Hboth).
  split; [reflexivity|]. split; [exact Hreq|]. split; [apply Hnone; reflexivity|].
  split.
  - destruct Hdrop
      as [(file & rest & Hdropped & Himage & _)
         | (_ & Hsame & Heff & _)].
    + injection Hdropped as <- <-. discriminate Himage.
    + split; [apply Hsame | exact Heff].
  - destruct Hboth
      as [(file & rest & Hdropped & _ & Hfiles & _ & _ & _ & _ & Hsent)
         | ([Hnil | (file & rest & Hdropped & Himage)] & _)].
    + injection Hdropped as <- <-. split; [exact Hfiles | exact Hsent].
    + discriminate Hnil.
    + injection Hdropped as <- <-. discriminate Himage.
Defined.

(** An empty file with an image type is dropped, then submitted; and a file
    that is no image is chosen in the file dialog, then submitted.  Both are
    sent. *)
Lemma C9_ocr_request_when_file_attached_counterexample :
  (let blank := mkFile "blank.png" "image/png" [] in
   let w := run [FileUploadAreaDrop [blank]] (page_loaded "passport") in
   file_bytes blank = [] /\
   document_file w = [blank] /\
   new_requests (processOCRAndContinue offline) w =
     [ocr_request blank "passport"]) /\
  (let cv := mkFile "cv.pdf" "application/pdf" [Byte.x25; Byte.x50] in
   let w := run [DocumentFileChange [cv]] (page_loaded "passport") in
   String.prefix "image/" (file_type cv) = false /\
   document_file w = [cv] /\
   new_requests (processOCRAndContinue offline) w =
     [ocr_request cv "passport"]).
Proof.
  split; vm_compute; repeat split.
Qed.

(** ** The step on display along a run *)

Lemma run_snoc (evs : list Event) (ev : Event) (w : World) :
  run (evs ++ [ev])%list w = dispatch (run evs w) ev.
Proof.
  unfold run. rewrite fold_left_app. reflexivity.
Qed.

(** What an event does to the step on display and to [ocrResult]. *)
Lemma dispatch_step (w : World) (ev : Event) :
  let w' := dispatch w ev in
  (step_shown w' = step_shown w /\ ocrResult w' = ocrResult w) \/
  step_shown w' = 1 \/
  (step_shown w' = 2 /\
   exists net file rest data,
     ev = OcrFormSubmit net /\
     document_file w = file :: rest /\
     net (ocr_request file (doc_type_ocr w)) = Some (Parsed data) /\
     succeeded data = true /\
     prop data "data" = inr (ocrResult w')) \/
  (step_shown w' = 3 /\
   exists net, ev = SelfieFormSubmit net /\ answered_with_success w ev).
Proof.
  intros w'. subst w'. unfold dispatch.
  destruct ev; cbn [listener];
    try (left; split; reflexivity).
  - destruct files; left; split; reflexivity.
  - destruct files as [|f fs]; [left; split; reflexivity|]. cbn.
    destruct (String.prefix "image/" (file_type f)); left; split; reflexivity.
  - destruct (processOCRAndContinue_frame net w)
      as (_ & _ & _ & _ & [Hsame | (Hstep & file & rest & data & H)]).
    + left. exact Hsame.
    + right; right; left. split; [exact Hstep|].
      exists net, file, rest, data. split; [reflexivity | exact H].
  - destruct (processFaceComparison_frame net w)
      as (_ & _ & _ & Hocr & [Hstep | [(Hstep & _) | (Hstep & Hok)]]).
    + left. split; assumption.
    + right; left. exact Hstep.
    + right; right; right. split; [exact Hstep|].
      exists net. split; [reflexivity | exact Hok].
  - right; left. reflexivity.
Qed.

Lemma reachable_step_range (w : World) :
  reachable w -> 1 <= step_shown w <= 3.
Proof.
  induction 1 as [d | w ev _ IH]; [cbn; lia|].
  destruct (dispatch_step w ev)
    as [(Hstep & _) | [Hstep | [(Hstep & _) | (Hstep & _)]]];
    rewrite Hstep; lia.
Qed.

(** C8.  In every state the loaded page reaches by any sequence of events
    (attaching and removing files, submitting either form with any answer of
    the network, calling [resetVerification]), the step on display is 1, 2 or
    3; and whatever event comes next, the step after it is again 1, 2 or 3,
    and it is a later step than before only if the event is a submission
    whose request came back with a true [success]: of the OCR form, and then
    step 2 is shown, or of the selfie form, and then step 3 is shown. *)
Theorem C8_step_stays_in_range (d : string) (evs : list Event) (ev : Event) :
  let w := run evs (page_loaded d) in
  1 <= step_shown w <= 3 /\
  1 <= step_shown (dispatch w ev) <= 3 /\
  (step_shown w < step_shown (dispatch w ev) ->
   answered_with_success w ev /\
   ((exists net, ev = OcrFormSubmit net) /\ step_shown (dispatch w ev) = 2 \/
    (exists net, ev = SelfieFormSubmit net) /\ step_shown (dispatch w ev) = 3)).
Proof.
  intros w.
  assert (Hreach : reachable w) by (apply reachable_run; constructor).
  pose proof (reachable_step_range w Hreach) as Hrange.
  split; [exact Hrange|]. split.
  - apply reachable_step_range. constructor. exact Hreach.
  - intros Hlater.
    destruct (dispatch_step w ev)
      as [(Hstep & _) | [Hstep | [(Hstep & H) | (Hstep & H)]]]; try lia.
    + destruct H as (net & file & rest & data & -> & Hfiles & Hnet & Hok & _).
      split.
      * exists file, rest, data. auto.
      * left. split; [exists net; reflexivity | exact Hstep].
    + destruct H as (net & -> & Hok).
      split; [exact Hok|].
      right. split; [exists net; reflexivity | exact Hstep].
Qed.

(** The end of a completed verification, and one more submission. *)
Lemma C8_step_stays_in_range_witness :
  let w := run [DocumentFileChange [id_123_jpg];
                OcrFormSubmit (respond (ok ocr_payload));
                SelfieFileChange [selfie_jpg];
                SelfieFormSubmit (respond (ok face_payload))]
             (page_loaded "passport") in
  let ev := SelfieFormSubmit (respond (ok face_payload)) in
  step_shown w = 3 /\
  1 <= step_shown w <= 3 /\
  1 <= step_shown (dispatch w ev) <= 3 /\
  (step_shown w < step_shown (dispatch w ev) ->
   answered_with_success w ev /\
   ((exists net, ev = OcrFormSubmit net) /\ step_shown (dispatch w ev) = 2 \/
    (exists net, ev = SelfieFormSubmit net) /\ step_shown (dispatch w ev) = 3)).
Proof.
  intros w ev. split; [reflexivity|].
  apply (C8_step_stays_in_range "passport"
           [DocumentFileChange [id_123_jpg];
            OcrFormSubmit (respond (ok ocr_payload));
            SelfieFileChange [selfie_jpg];
            SelfieFormSubmit (respond (ok face_payload))] ev).
Defined.

(** ** The OCR result when a comparison is requested *)

Lemma dispatch_populated_at_step_2 (w : World) (ev : Event) :
  ocr_answers_carry_data ev ->
  populated_at_step_2 w -> populated_at_step_2 (dispatch w ev).
Proof.
  unfold populated_at_step_2. intros Hserved Hinv Hstep2.
  destruct (dispatch_step w ev)
    as [(Hstep & Hocr) | [Hstep | [(_ & H) | (Hstep & _)]]]; try congruence.
  - rewrite Hocr. apply Hinv. congruence.
  - destruct H as (net & file & rest & data & -> & _ & Hnet & Hok & Hdata).
    exact (Hserved _ data _ Hnet Hok Hdata).
Qed.

Lemma run_populated_at_step_2 (d : string) (evs : list Event) :
  Forall ocr_answers_carry_data evs ->
  populated_at_step_2 (run evs (page_loaded d)).
Proof.
  induction evs as [|ev evs IH] using rev_ind; intros Hserved.
  - intros Hstep. discriminate Hstep.
  - apply Forall_app in Hserved. destruct Hserved as (Hevs & Hev).
    rewrite run_snoc. apply dispatch_populated_at_step_2.
    + inversion Hev; assumption.
    + apply IH. exact Hevs.
Qed.

(** C2, as the code has it.  In the state reached by any sequence of events,
    [processFaceComparison] issues a request exactly when a document image
    is stored and a selfie is attached, and the request carries these two
    files; [ocrResult] is not looked at before.  When step 2 is on display,
    and every body with a true [success] the OCR endpoint has sent carried a
    [data], [ocrResult] is populated at that moment. *)
Theorem C2_comparison_request_guard
  (d : string) (evs : list Event) (net : Network) :
  let w := run evs (page_loaded d) in
  new_requests (processFaceComparison net) w =
    match documentImageFile w, selfie_file w with
    | Some documentImage, selfieFile :: _ =>
        [mkRequest (API_BASE_URL ++ "/kyc/face-compare") "POST"
           [("document_image", FormFile documentImage);
            ("selfie_image", FormFile selfieFile)]]
    | _, _ => []
    end /\
  (Forall ocr_answers_carry_data evs ->
   step_shown w = 2 ->
   nullish (ocrResult w) = false).
Proof.
  intros w. split.
  - apply new_requests_processFaceComparison.
  - apply run_populated_at_step_2.
Qed.

(** A document processed with a complete answer, and a selfie attached. *)
Lemma C2_comparison_request_guard_witness :
  let evs := [DocumentFileChange [id_123_jpg];
              OcrFormSubmit (respond (ok ocr_payload));
              SelfieFileChange [selfie_jpg]] in
  let w := run evs (page_loaded "passport") in
  Forall ocr_answers_carry_data evs /\
  step_shown w = 2 /\
  new_requests (processFaceComparison offline) w =
    [face_compare_request id_123_jpg selfie_jpg] /\
  nullish (ocrResult w) = false.
Proof.
  intros evs w.
  assert (Hserved : Forall ocr_answers_carry_data evs).
  { repeat constructor. intros req data payload Hnet _ Hdata.
    injection Hnet as <-. injection Hdata as <-. reflexivity. }
  destruct (C2_comparison_request_guard "passport" evs offline) as (Hreq & Hocr).
  split; [exact Hserved|]. split; [reflexivity|]. split; [exact Hreq|].
  apply Hocr; [exact Hserved | reflexivity].
Defined.

(** Two sessions in which the comparison request is issued while [ocrResult]
    is not populated.  In the first the OCR request failed, which leaves the
    document image stored; in the second the OCR endpoint answered with a
    true [success] and no [data], and step 2 is on display. *)
Lemma C2_comparison_request_guard_counterexample :
  (let w := run [DocumentFileChange [id_123_jpg];
                 OcrFormSubmit (respond (failed "unreadable document"));
                 SelfieFileChange [selfie_jpg]] (page_loaded "passport") in
   ocrResult w = VNull /\
   new_requests (processFaceComparison (respond (ok face_payload))) w =
     [face_compare_request id_123_jpg selfie_jpg]) /\
  (let w := run [DocumentFileChange [id_123_jpg];
                 OcrFormSubmit (respond (VObj [("success", VBool true)]));
                 SelfieFileChange [selfie_jpg]] (page_loaded "passport") in
   step_shown w = 2 /\
   ocrResult w = VUndefined /\
   new_requests (processFaceComparison (respond (ok face_payload))) w =
     [face_compare_request id_123_jpg selfie_jpg]).
Proof.
  split; vm_compute; repeat split.
Qed.

(** ** Reset *)

(** C7, as the code has it.  From any state [resetVerification] returns
    normally with both variables null, nothing attached to either input, the
    document type back to its default, the placeholders shown and the
    previews hidden, and step 1 on display; what [#combined-results] holds
    is left as it is.  Run again at once it changes nothing. *)
Theorem C7_reset_clears_and_is_idempotent (w : World) :
  exists w1,
    resetVerification w = Normal tt w1 /\
    ocrResult w1 = VNull /\
    documentImageFile w1 = None /\
    document_file w1 = [] /\
    selfie_file w1 = [] /\
    doc_type_ocr w1 = doc_type_default w /\
    (upload_placeholder w1 = true /\ file_preview w1 = false /\
     selfie_placeholder w1 = true /\ selfie_preview w1 = false) /\
    step_shown w1 = 1 /\
    combined_results w1 = combined_results w /\
    effects w1 = effects w /\
    resetVerification w1 = Normal tt w1.
Proof.
  eexists. split; [reflexivity|]. cbn. repeat split.
Qed.

(** After a completed verification, a reset leaves the rendered comparison
    in [#combined-results]. *)
Lemma C7_reset_clears_and_is_idempotent_counterexample :
  let w := run [DocumentFileChange [id_123_jpg];
                OcrFormSubmit (respond (ok ocr_payload));
                SelfieFileChange [selfie_jpg];
                SelfieFormSubmit (respond (ok face_payload))]
             (page_loaded "passport") in
  let w1 := world_of (resetVerification w) in
  step_shown w1 = 1 /\
  ocrResult w1 = VNull /\
  documentImageFile w1 = None /\
  combined_results w1 = combined_results w /\
  combined_results w1 <> None.
Proof.
  vm_compute. repeat split. discriminate.
Qed.

(** * Further properties of the verification flow *)

(** Splits a submission into all the ways it can go. *)
Ltac js_paths :=
  js_unfold; cbn;
  repeat match goal with
         | |- context [match ?x with _ => _ end] =>
             lazymatch x with
             | context [match _ with _ => _ end] => fail
             | _ => destruct x eqn:?; cbn
             end
         end.

Lemma new_effects_of_effects {A : Type} (c : M A) (w : World) (new : list Effect) :
  effects (world_of (c w)) = (effects w ++ new)%list ->
  new_effects c w = new.
Proof.
  intros Heff. unfold new_effects. rewrite Heff. apply skipn_length_app.
Qed.

(** Closes a path: the effects made are read off the world reached. *)
Ltac js_done :=
  rewrite <- ?app_assoc; rewrite ?skipn_length_app; cbn.

(** ** Notifications *)

(** X1.  Every run of [processOCRAndContinue] emits exactly one
    notification, which is also the text left in the toast.  It is of type
    ["success"] exactly on the path that stores the OCR result and shows
    step 2; on every other path it is of type ["error"] and neither the step
    nor [ocrResult] changes. *)
Theorem ocr_submission_notifies_once (net : Network) (w : World) :
  let w' := world_of (processOCRAndContinue net w) in
  exists message type,
    toasts (new_effects (processOCRAndContinue net) w) = [(message, type)] /\
    toast_text w' = message /\
    toast_show w' = true /\
    ((type = "success" /\ step_shown w' = 2 /\
      answered_with_success w (OcrFormSubmit net)) \/
     (type = "error" /\ step_shown w' = step_shown w /\
      ocrResult w' = ocrResult w)).
Proof.
  unfold new_effects. js_paths; js_done.
  all: eexists _, _; split; [reflexivity|]; split; [reflexivity|];
    split; [reflexivity|]; try (right; repeat split; reflexivity).
  left. repeat split.
  match goal with
  | Hn : net _ = Some (Parsed ?v), Hs : prop ?v "success" = inr ?b,
    Ht : truthy ?b = true |- exists file rest data, ?f :: ?l = _ /\ _ =>
      exists f, l, v; split; [reflexivity|]; split; [exact Hn|];
      unfold succeeded; rewrite Hs; exact Ht
  end.
Qed.

(** X2.  Every run of [processFaceComparison] emits exactly one
    notification, which is also the text left in the toast.  It is of type
    ["success"] exactly on the path that renders the result and shows step
    3; on every other path it is of type ["error"], nothing is rendered, and
    the step is as before, or 1 when there was no stored document image. *)
Theorem comparison_submission_notifies_once (net : Network) (w : World) :
  let w' := world_of (processFaceComparison net w) in
  exists message type,
    toasts (new_effects (processFaceComparison net) w) = [(message, type)] /\
    toast_text w' = message /\
    toast_show w' = true /\
    ((type = "success" /\ step_shown w' = 3 /\ combined_results w' <> None) \/
     (type = "error" /\ combined_results w' = combined_results w /\
      (step_shown w' = step_shown w \/
       step_shown w' = 1 /\ documentImageFile w = None))).
Proof.
  unfold new_effects. js_paths; js_done.
  all: eexists _, _; split; [reflexivity|]; split; [reflexivity|];
    split; [reflexivity|].
  all: try (right; repeat split; auto; fail).
  left. repeat split. discriminate.
Qed.

(** ** The loading overlay *)

(** X3.  A submission that makes no request does not touch the loading
    overlay.  One that makes its request shows the overlay first and has
    hidden it again when it returns, on every path, the failing ones
    included ([showLoading(false)] runs once, or twice when the [catch]
    block runs after the body was read). *)
Theorem submissions_hide_the_overlay (net : Network) (w : World) :
  (match document_file w with
   | [] =>
       loadings (new_effects (processOCRAndContinue net) w) = [] /\
       loading_overlay (world_of (processOCRAndContinue net w)) = loading_overlay w
   | _ :: _ =>
       (loadings (new_effects (processOCRAndContinue net) w) = [true; false] \/
        loadings (new_effects (processOCRAndContinue net) w) = [true; false; false]) /\
       loading_overlay (world_of (processOCRAndContinue net w)) = false
   end) /\
  (match documentImageFile w, selfie_file w with
   | Some _, _ :: _ =>
       (loadings (new_effects (processFaceComparison net) w) = [true; false] \/
        loadings (new_effects (processFaceComparison net) w) = [true; false; false]) /\
       loading_overlay (world_of (processFaceComparison net w)) = false
   | _, _ =>
       loadings (new_effects (processFaceComparison net) w) = [] /\
       loading_overlay (world_of (processFaceComparison net w)) = loading_overlay w
   end).
Proof.
  split; unfold new_effects; js_paths; js_done; auto.
Qed.

Lemma dispatch_keeps_overlay_hidden (w : World) (ev : Event) :
  loading_overlay w = false -> loading_overlay (dispatch w ev) = false.
Proof.
  intros Hidden. unfold dispatch.
  destruct ev; cbn [listener]; try exact Hidden.
  - js_paths; assumption.
  - js_paths; assumption.
  - js_paths; auto.
  - js_paths; auto.
Qed.

(** X4.  Between two events the loading overlay is never left on display:
    in the state the loaded page reaches by any sequence of events it is
    hidden. *)
Theorem overlay_hidden_between_events (d : string) (evs : list Event) :
  loading_overlay (run evs (page_loaded d)) = false.
Proof.
  induction evs as [|ev evs IH] using rev_ind; [reflexivity|].
  rewrite run_snoc. apply dispatch_keeps_overlay_hidden. exact IH.
Qed.

(** ** The stored document image *)

(** X5.  In the state the loaded page reaches by any sequence of events, a
    file attached to the document input is the stored document image: the
    image a comparison request would send is the one an OCR request would
    send. *)
Theorem attached_document_is_stored
  (d : string) (evs : list Event) (file : File) (rest : list File) :
  document_file (run evs (page_loaded d)) = file :: rest ->
  documentImageFile (run evs (page_loaded d)) = Some file.
Proof.
  apply reachable_attached_is_stored. apply reachable_run. constructor.
Qed.

(** A second document is dropped over the first. *)
Lemma attached_document_is_stored_witness :
  let evs := [DocumentFileChange [id_123_jpg];
              FileUploadAreaDrop [selfie_jpg; id_123_jpg]] in
  document_file (run evs (page_loaded "passport")) = [selfie_jpg; id_123_jpg] /\
  documentImageFile (run evs (page_loaded "passport")) = Some selfie_jpg.
Proof.
  intros evs. split; [reflexivity|].
  apply (attached_document_is_stored "passport" evs selfie_jpg [id_123_jpg]).
  reflexivity.
Defined.

(** X6.  The converse fails by a [change] event without a file (the file
    dialog closed without a choice): the input is emptied but the image
    chosen before stays stored.  From then on an OCR submission makes no
    request, while a comparison submission with a selfie attached still
    sends the stored image. *)
Theorem cancelled_choice_keeps_stored_image
  (net : Network) (w : World) (documentImage selfieFile : File)
  (rest : list File) :
  documentImageFile w = Some documentImage ->
  selfie_file w = selfieFile :: rest ->
  let w1 := dispatch w (DocumentFileChange []) in
  document_file w1 = [] /\
  documentImageFile w1 = Some documentImage /\
  new_requests (processOCRAndContinue net) w1 = [] /\
  new_requests (processFaceComparison net) w1 =
    [face_compare_request documentImage selfieFile].
Proof.
  intros Hdoc Hselfie w1.
  assert (Hfiles : document_file w1 = []) by reflexivity.
  assert (Hdoc1 : documentImageFile w1 = Some documentImage) by exact Hdoc.
  assert (Hselfie1 : selfie_file w1 = selfieFile :: rest) by exact Hselfie.
  split; [exact Hfiles|]. split; [exact Hdoc1|]. split.
  - rewrite new_requests_processOCRAndContinue, Hfiles. reflexivity.
  - rewrite new_requests_processFaceComparison, Hdoc1, Hselfie1. reflexivity.
Qed.

Lemma cancelled_choice_keeps_stored_image_witness :
  let w := run [DocumentFileChange [id_123_jpg];
                SelfieFileChange [selfie_jpg]] (page_loaded "passport") in
  let w1 := dispatch w (DocumentFileChange []) in
  document_file w1 = [] /\
  documentImageFile w1 = Some id_123_jpg /\
  new_requests (processOCRAndContinue offline) w1 = [] /\
  new_requests (processFaceComparison offline) w1 =
    [face_compare_request id_123_jpg selfie_jpg].
Proof.
  intros w.
  apply (cancelled_choice_keeps_stored_image offline w id_123_jpg selfie_jpg []);
    reflexivity.
Defined.

(** X7.  After [resetVerification], from any state, neither submission
    makes a request: the OCR form asks for a file, the selfie form reports
    the missing document, and step 1 stays on display. *)
Theorem nothing_is_sent_after_reset (net : Network) (w : World) :
  let w1 := world_of (resetVerification w) in
  new_requests (processOCRAndContinue net) w1 = [] /\
  toasts (new_effects (processOCRAndContinue net) w1) =
    [(select_file_text, "error")] /\
  step_shown (world_of (processOCRAndContinue net w1)) = 1 /\
  new_requests (processFaceComparison net) w1 = [] /\
  toasts (new_effects (processFaceComparison net) w1) =
    [(document_missing_text, "error")] /\
  step_shown (world_of (processFaceComparison net w1)) = 1.
Proof.
  intros w1.
  rewrite new_requests_processOCRAndContinue, new_requests_processFaceComparison.
  unfold new_effects.
  rewrite (processOCRAndContinue_no_file net w1 eq_refl).
  rewrite (processFaceComparison_no_document net w1 eq_refl).
  cbn. rewrite !skipn_length_app. repeat split.
Qed.

(** X8.  After a click on the remove button of the document, from any
    state, neither submission makes a request; the OCR form asks for a file
    and leaves the step alone, the selfie form reports the missing document
    and goes back to step 1, whatever is attached to it. *)
Theorem nothing_is_sent_after_removal (net : Network) (w : World) :
  let w1 := dispatch w RemoveFileBtnClick in
  new_requests (processOCRAndContinue net) w1 = [] /\
  toasts (new_effects (processOCRAndContinue net) w1) =
    [(select_file_text, "error")] /\
  step_shown (world_of (processOCRAndContinue net w1)) = step_shown w /\
  new_requests (processFaceComparison net) w1 = [] /\
  toasts (new_effects (processFaceComparison net) w1) =
    [(document_missing_text, "error")] /\
  step_shown (world_of (processFaceComparison net w1)) = 1.
Proof.
  intros w1.
  rewrite new_requests_processOCRAndContinue, new_requests_processFaceComparison.
  unfold new_effects.
  rewrite (processOCRAndContinue_no_file net w1 eq_refl).
  rewrite (processFaceComparison_no_document net w1 eq_refl).
  cbn. rewrite !skipn_length_app. repeat split.
Qed.

(** X9.  What the submissions never touch: neither changes what is attached
    to the two inputs, the chosen document type or the stored document
    image; [processOCRAndContinue] never changes the rendered result, and
    [processFaceComparison] never changes [ocrResult]. *)
Theorem submissions_leave_attachments (net : Network) (w : World) :
  (let w' := world_of (processOCRAndContinue net w) in
   document_file w' = document_file w /\
   selfie_file w' = selfie_file w /\
   doc_type_ocr w' = doc_type_ocr w /\
   documentImageFile w' = documentImageFile w /\
   combined_results w' = combined_results w) /\
  (let w' := world_of (processFaceComparison net w) in
   document_file w' = document_file w /\
   selfie_file w' = selfie_file w /\
   doc_type_ocr w' = doc_type_ocr w /\
   documentImageFile w' = documentImageFile w /\
   ocrResult w' = ocrResult w).
Proof.
  split; js_paths; repeat split; auto.
Qed.

(** ** The rendered result and the steps *)

(** What an event does to the rendered result: it leaves it, or it is a
    selfie submission that shows step 3 with a result rendered. *)
Lemma dispatch_combined_results (w : World) (ev : Event) :
  combined_results (dispatch w ev) = combined_results w \/
  ((exists net, ev = SelfieFormSubmit net) /\
   step_shown (dispatch w ev) = 3 /\
   combined_results (dispatch w ev) <> None).
Proof.
  unfold dispatch. destruct ev; cbn [listener]; try (left; reflexivity).
  - js_paths; left; reflexivity.
  - js_paths; left; reflexivity.
  - js_paths; left; reflexivity.
  - js_paths; try (left; reflexivity).
    right. split; [eexists; reflexivity|]. split; [reflexivity | discriminate].
Qed.

(** X10.  Once a comparison result has been rendered, no event empties
    [#combined-results] again: not a reset, not the removal of the files,
    not a failed submission.  The content only changes by a comparison that
    succeeds, which renders a new result. *)
Theorem rendered_result_is_never_cleared (w : World) (ev : Event) :
  combined_results w <> None ->
  combined_results (dispatch w ev) <> None /\
  (combined_results (dispatch w ev) <> combined_results w ->
   (exists net, ev = SelfieFormSubmit net) /\ step_shown (dispatch w ev) = 3).
Proof.
  intros Hrendered.
  destruct (dispatch_combined_results w ev) as [Hsame | (Hev & Hstep & Hres)].
  - rewrite Hsame. split; [exact Hrendered | intros H; contradiction H; reflexivity].
  - split; [exact Hres | intros _; split; assumption].
Qed.

(** A reset after a completed verification. *)
Lemma rendered_result_is_never_cleared_witness :
  let w := run [DocumentFileChange [id_123_jpg];
                OcrFormSubmit (respond (ok ocr_payload));
                SelfieFileChange [selfie_jpg];
                SelfieFormSubmit (respond (ok face_payload))]
             (page_loaded "passport") in
  combined_results (dispatch w ResetVerificationCall) <> None /\
  (combined_results (dispatch w ResetVerificationCall) <> combined_results w ->
   (exists net, ResetVerificationCall = SelfieFormSubmit net) /\
   step_shown (dispatch w ResetVerificationCall) = 3).
Proof.
  intros w. apply (rendered_result_is_never_cleared w ResetVerificationCall).
  vm_compute. discriminate.
Defined.

Lemma dispatch_step_3 (w : World) (ev : Event) :
  step_shown (dispatch w ev) = 3 ->
  step_shown w = 3 \/ combined_results (dispatch w ev) <> None.
Proof.
  intros Hstep.
  destruct (dispatch_step w ev)
    as [(Hsame & _) | [H1 | [(H2 & _) | (_ & net & -> & _)]]]; try congruence.
  - left. congruence.
  - destruct (dispatch_combined_results w (SelfieFormSubmit net))
      as [Hsame | (_ & _ & Hres)]; [|right; exact Hres].
    revert Hstep Hsame. unfold dispatch. cbn [listener].
    js_paths; intros Hstep Hsame; try (left; exact Hstep); try discriminate Hstep.
    right. discriminate.
Qed.

(** X11.  In the state the loaded page reaches by any sequence of events,
    step 3 is on display only with a comparison result rendered: the result
    page is never shown empty. *)
Theorem step_3_shows_a_result (d : string) (evs : list Event) :
  step_shown (run evs (page_loaded d)) = 3 ->
  combined_results (run evs (page_loaded d)) <> None.
Proof.
  induction evs as [|ev evs IH] using rev_ind; [discriminate|].
  rewrite run_snoc. intros Hstep.
  destruct (dispatch_step_3 _ _ Hstep) as [Hbefore | Hres]; [|exact Hres].
  destruct (dispatch_combined_results (run evs (page_loaded d)) ev)
    as [Hsame | (_ & _ & Hres)]; [|exact Hres].
  rewrite Hsame. apply IH. exact Hbefore.
Qed.

Lemma step_3_shows_a_result_witness :
  let evs := [DocumentFileChange [id_123_jpg];
              OcrFormSubmit (respond (ok ocr_payload));
              SelfieFileChange [selfie_jpg];
              SelfieFormSubmit (respond (ok face_payload));
              RemoveSelfieBtnClick] in
  step_shown (run evs (page_loaded "passport")) = 3 /\
  combined_results (run evs (page_loaded "passport")) <> None.
Proof.
  intros evs. split; [reflexivity|].
  apply (step_3_shows_a_result "passport" evs). reflexivity.
Defined.

(** X12.  [ocrResult] is written in two places only: an event leaves it as
    it is, unless it is a call of [resetVerification], which makes it null,
    or an OCR submission answered with a true [success], which stores the
    [data] of the answer and shows step 2. *)
Theorem ocrResult_changes_by_ocr_or_reset (w : World) (ev : Event) :
  ocrResult (dispatch w ev) = ocrResult w \/
  (ev = ResetVerificationCall /\ ocrResult (dispatch w ev) = VNull) \/
  (exists net file rest data,
     ev = OcrFormSubmit net /\
     document_file w = file :: rest /\
     net (ocr_request file (doc_type_ocr w)) = Some (Parsed data) /\
     succeeded data = true /\
     prop data "data" = inr (ocrResult (dispatch w ev)) /\
     step_shown (dispatch w ev) = 2).
Proof.
  destruct ev; try (left; reflexivity).
  - left. unfold dispatch. cbn [listener]. js_paths; reflexivity.
  - left. unfold dispatch. cbn [listener]. js_paths; reflexivity.
  - destruct (processOCRAndContinue_frame net w)
      as (_ & _ & _ & _ & [(_ & Hsame) | (Hstep & file & rest & data & H)]).
    + left. exact Hsame.
    + right; right. exists net, file, rest, data.
      destruct H as (Hfiles & Hnet & Hok & Hdata). repeat split; assumption.
  - left. apply (processFaceComparison_frame net w).
  - right; left. split; reflexivity.
Qed.

(** X13.  In the state the loaded page reaches by any sequence of events,
    the next event shows an earlier step than before only in three cases: a
    call of [resetVerification]; a selfie submission without a stored
    document image (both show step 1); an OCR submission answered with a
    true [success] while step 3 was on display, which shows step 2. *)
Theorem step_goes_back_only_by (d : string) (evs : list Event) (ev : Event) :
  let w := run evs (page_loaded d) in
  step_shown (dispatch w ev) < step_shown w ->
  (ev = ResetVerificationCall /\ step_shown (dispatch w ev) = 1) \/
  ((exists net, ev = SelfieFormSubmit net) /\
   documentImageFile w = None /\ step_shown (dispatch w ev) = 1) \/
  ((exists net, ev = OcrFormSubmit net) /\
   answered_with_success w ev /\
   step_shown w = 3 /\ step_shown (dispatch w ev) = 2).
Proof.
  intros w Hback.
  assert (Hrange : 1 <= step_shown w <= 3)
    by (apply reachable_step_range, reachable_run; constructor).
  destruct ev;
    try (exfalso; revert Hback; unfold dispatch; cbn [listener];
         js_paths; cbn; lia).
  - destruct (processOCRAndContinue_frame net w)
      as (_ & _ & _ & _ & [(Hsame & _) | (Hstep & file & rest & data & H)]).
    + unfold dispatch in Hback. cbn [listener] in Hback. lia.
    + right; right. split; [exists net; reflexivity|].
      destruct H as (Hfiles & Hnet & Hok & _).
      split; [exists file, rest, data; auto|].
      unfold dispatch in Hback |- *. cbn [listener] in Hback |- *.
      split; [lia | exact Hstep].
  - destruct (processFaceComparison_frame net w)
      as (_ & _ & _ & _ & [Hsame | [(Hstep & Hdoc) | (Hstep & _)]]);
      unfold dispatch in Hback |- *; cbn [listener] in Hback |- *; try lia.
    right; left. split; [exists net; reflexivity|]. split; assumption.
  - left. split; reflexivity.
Qed.

(** From the result page, the document form is submitted once more. *)
Lemma step_goes_back_only_by_witness :
  let evs := [DocumentFileChange [id_123_jpg];
              OcrFormSubmit (respond (ok ocr_payload));
              SelfieFileChange [selfie_jpg];
              SelfieFormSubmit (respond (ok face_payload))] in
  let ev := OcrFormSubmit (respond (ok ocr_payload)) in
  let w := run evs (page_loaded "passport") in
  step_shown w = 3 /\ step_shown (dispatch w ev) = 2 /\
  ((ev = ResetVerificationCall /\ step_shown (dispatch w ev) = 1) \/
   ((exists net, ev = SelfieFormSubmit net) /\
    documentImageFile w = None /\ step_shown (dispatch w ev) = 1) \/
   ((exists net, ev = OcrFormSubmit net) /\
    answered_with_success w ev /\
    step_shown w = 3 /\ step_shown (dispatch w ev) = 2)).
Proof.
  intros evs ev w. split; [reflexivity|]. split; [reflexivity|].
  apply (step_goes_back_only_by "passport" evs ev).
  vm_compute. lia.
Defined.

(** ** What [displayCombinedResults] renders *)

(** Takes apart a successful evaluation of a chain of [let!]. *)
Ltac and_then_inv H :=
  repeat match type of H with
         | and_then ?r _ = inr _ =>
             let E := fresh "E" in
             destruct r eqn:E; cbn [and_then] in H; [discriminate H|]
         end.

Lemma plain_to_string (v : value) :
  plain v = true -> exists text, to_string v = inr text.
Proof.
  destruct v; try discriminate; intros _; cbn; eauto.
  destruct b; eauto.
Qed.

Lemma map_exn_feature_item (features : list (string * value)) :
  forallb (fun entry : string * value =>
             match snd entry with
             | VObj item => plain (lookup "similarity" item)
             | _ => false
             end) features = true ->
  exists items, map_exn feature_item features = inr items.
Proof.
  induction features as [|[key value] rest IH]; cbn; [eauto|].
  intros H. apply andb_true_iff in H. destruct H as (Hitem & Hrest).
  destruct value; try discriminate Hitem. cbn.
  destruct (plain_to_string _ Hitem) as (text & ->). cbn.
  destruct (IH Hrest) as (items & ->). cbn. eauto.
Qed.

Lemma map_exn_detail_item (details : list (string * value)) :
  forallb (fun entry : string * value => plain (snd entry)) details = true ->
  exists items, map_exn detail_item details = inr items.
Proof.
  induction details as [|[key value] rest IH]; cbn; [eauto|].
  intros H. apply andb_true_iff in H. destruct H as (Hitem & Hrest).
  destruct (IH Hrest) as (items & Hitems).
  destruct (truthy value && negb (String.eqb key "document_type")); cbn.
  - destruct (plain_to_string _ Hitem) as (text & ->). cbn.
    rewrite Hitems. cbn. eauto.
  - rewrite Hitems. cbn. eauto.
Qed.

Lemma combined_html_of_shapes (ocrData faceData : value) :
  ocr_shape ocrData = true ->
  face_shape faceData = true ->
  exists html, combined_html ocrData faceData = inr html.
Proof.
  unfold ocr_shape, face_shape. intros Hocr Hface.
  destruct faceData as [| | | | | |fields|]; try discriminate Hface.
  destruct (lookup "comparison" fields) as [| | | | | |comparison|] eqn:Hc;
    try discriminate Hface.
  destruct (lookup "verification" fields) as [| | | | | |verification|] eqn:Hv;
    try discriminate Hface.
  destruct (lookup "age_analysis" fields) as [| | | | | |ageAnalysis|] eqn:Ha;
    try discriminate Hface.
  destruct (lookup "feature_comparison" fields) as [| | | | | |features|] eqn:Hf;
    try discriminate Hface.
  repeat (apply andb_true_iff in Hface; destruct Hface as (Hface & ?)).
  destruct ocrData as [| | | | | |ofields|]; try discriminate Hocr.
  destruct (lookup "extracted_details" ofields) as [| | | | | |details|] eqn:Hd;
    try discriminate Hocr.
  unfold combined_html. cbn. rewrite Hc, Hv, Ha, Hf, Hd. cbn.
  destruct (lookup "similarity_percentage" comparison) eqn:Hs;
    try discriminate Hface.
  destruct (plain_to_string (lookup "age_gap" ageAnalysis)) as (gap & Hgap);
    [assumption|].
  destruct (plain_to_string (lookup "verdict" verification)) as (t1 & Ht1);
    [assumption|].
  destruct (plain_to_string (lookup "message" verification)) as (t2 & Ht2);
    [assumption|].
  destruct (plain_to_string (lookup "recommendation" verification)) as (t3 & Ht3);
    [assumption|].
  destruct (plain_to_string (lookup "confidence" comparison)) as (t4 & Ht4);
    [assumption|].
  destruct (map_exn_feature_item features) as (items & Hitems); [assumption|].
  destruct (map_exn_detail_item details) as (shown & Hshown); [assumption|].
  rewrite Hgap, Hitems, Ht1, Ht2, Ht3, Ht4, Hshown.
  destruct (truthy (lookup "significant_gap" ageAnalysis)); cbn; eauto.
Qed.

(** X14.  [displayCombinedResults] cannot throw on payloads of the expected
    shape: with an OCR result whose [extracted_details] is an object of
    primitives, and comparison data made of the four objects with a numeric
    similarity, primitive texts and one object per feature, the markup is
    produced, with the similarity of the payload in it. *)
Theorem well_shaped_payloads_render (ocrData faceData : value) :
  ocr_shape ocrData = true ->
  face_shape faceData = true ->
  exists html comparison,
    combined_html ocrData faceData = inr html /\
    prop faceData "comparison" = inr comparison /\
    prop comparison "similarity_percentage" = inr (VNum (html_similarity html)).
Proof.
  intros Hocr Hface.
  destruct (combined_html_of_shapes ocrData faceData Hocr Hface) as (html & Hhtml).
  exists html.
  pose proof Hhtml as H. unfold combined_html in H. and_then_inv H.
  injection H as <-. cbn [html_similarity].
  eexists. split; [exact Hhtml|]. split; [reflexivity|].
  match goal with
  | Hn : toFixed_receiver ?v = inr ?n |- _ =>
      destruct v; try discriminate Hn; injection Hn as ->
  end.
  assumption.
Qed.

Lemma well_shaped_payloads_render_witness :
  ocr_shape ocr_payload = true /\
  face_shape face_payload = true /\
  exists html comparison,
    combined_html ocr_payload face_payload = inr html /\
    prop face_payload "comparison" = inr comparison /\
    prop comparison "similarity_percentage" = inr (VNum (html_similarity html)).
Proof.
  split; [reflexivity|]. split; [reflexivity|].
  apply (well_shaped_payloads_render ocr_payload face_payload); reflexivity.
Defined.

Lemma map_exn_detail_item_keys
  (details : list (string * value)) (items : list (option (string * string))) :
  map_exn detail_item details = inr items ->
  map fst (present items) = map fst (filter shown_detail details).
Proof.
  revert items. induction details as [|[key value] rest IH]; cbn; intros items H.
  - injection H as <-. reflexivity.
  - unfold shown_detail at 1. cbn [fst snd].
    destruct (truthy value && negb (String.eqb key "document_type")); cbn in H.
    + destruct (to_string value) as [e | text]; cbn in H; [discriminate H|].
      destruct (map_exn detail_item rest) as [e | others]; cbn in H;
        [discriminate H|].
      injection H as <-. cbn. f_equal. apply IH. reflexivity.
    + destruct (map_exn detail_item rest) as [e | others]; cbn in H;
        [discriminate H|].
      injection H as <-. cbn. apply IH. reflexivity.
Qed.

Lemma map_exn_feature_item_keys
  (features : list (string * value)) (items : list FeatureItem) :
  map_exn feature_item features = inr items ->
  map feature_key items = map fst features.
Proof.
  revert items. induction features as [|[key value] rest IH]; cbn; intros items H.
  - injection H as <-. reflexivity.
  - destruct (prop value "match") as [e | matched]; cbn in H; [discriminate H|].
    destruct (prop value "similarity") as [e | similarity]; cbn in H;
      [discriminate H|].
    destruct (to_string similarity) as [e | text]; cbn in H; [discriminate H|].
    destruct (map_exn feature_item rest) as [e | others]; cbn in H;
      [discriminate H|].
    injection H as <-. cbn. f_equal. apply IH. reflexivity.
Qed.

Lemma map_exn_detail_item_shown
  (details : list (string * value)) (items : list (option (string * string))) :
  map_exn detail_item details = inr items ->
  Forall2 (fun (detail : string * value) (item : string * string) =>
             fst item = fst detail /\ to_string (snd detail) = inr (snd item))
    (filter shown_detail details) (present items).
Proof.
  revert items. induction details as [|[key value] rest IH]; cbn; intros items H.
  - injection H as <-. constructor.
  - unfold shown_detail at 1. cbn [fst snd].
    destruct (truthy value && negb (String.eqb key "document_type")); cbn in H.
    + destruct (to_string value) as [e | text] eqn:Htext; cbn in H;
        [discriminate H|].
      destruct (map_exn detail_item rest) as [e | others]; cbn in H;
        [discriminate H|].
      injection H as <-. cbn. constructor.
      * cbn. split; [reflexivity | exact Htext].
      * apply IH. reflexivity.
    + destruct (map_exn detail_item rest) as [e | others]; cbn in H;
        [discriminate H|].
      injection H as <-. cbn. apply IH. reflexivity.
Qed.

(** X15.  When [displayCombinedResults] renders, the document information
    lists, in their order, exactly the extracted details whose value is
    truthy and whose key is not [document_type], each under its key and
    with its value as printed: empty, null and false values and the
    document type are left out. *)
Theorem document_information_shows_filled_details
  (ocrData faceData : value) (html : CombinedHtml) :
  combined_html ocrData faceData = inr html ->
  exists extracted_details details,
    prop ocrData "extracted_details" = inr extracted_details /\
    entries extracted_details = inr details /\
    Forall2 (fun (detail : string * value) (item : string * string) =>
               fst item = fst detail /\ to_string (snd detail) = inr (snd item))
      (filter shown_detail details) (html_document_info html) /\
    map fst (html_document_info html) = map fst (filter shown_detail details) /\
    ~ In "document_type" (map fst (html_document_info html)).
Proof.
  intros H. unfold combined_html in H. and_then_inv H.
  injection H as <-. cbn [html_document_info].
  eexists _, _. split; [reflexivity|]. split; [eassumption|].
  split; [apply map_exn_detail_item_shown; assumption|].
  pose proof (map_exn_detail_item_keys _ _ ltac:(eassumption)) as Hkeys.
  split; [exact Hkeys|].
  rewrite Hkeys. intros Hin. apply in_map_iff in Hin.
  destruct Hin as ((key & value) & Hkey & Hin). cbn in Hkey. subst key.
  apply filter_In in Hin. destruct Hin as (_ & Hshown).
  unfold shown_detail in Hshown. cbn in Hshown.
  rewrite andb_false_r in Hshown. discriminate Hshown.
Qed.

Lemma document_information_shows_filled_details_witness :
  exists html,
    combined_html ocr_payload face_payload = inr html /\
    html_document_info html =
      [("name", "A. Sample"); ("passport_number", "X1234567")].
Proof.
  destruct (combined_html ocr_payload face_payload) as [e | html] eqn:Hhtml;
    [vm_compute in Hhtml; discriminate Hhtml|].
  exists html. split; [reflexivity|].
  destruct (document_information_shows_filled_details
              ocr_payload face_payload html Hhtml)
    as (extracted_details & details & Hprop & Hentries & Hshown & _).
  injection Hprop as <-. injection Hentries as <-.
  cbn in Hshown.
  inversion Hshown as [|detail1 item1 details1 items1 (Hk1 & Ht1) Hrest1 E1 E2].
  inversion Hrest1 as [|detail2 item2 details2 items2 (Hk2 & Ht2) Hrest2 E3 E4].
  inversion Hrest2.
  destruct item1 as [k1 t1], item2 as [k2 t2]. cbn in *.
  injection Ht1 as <-. injection Ht2 as <-. subst k1 k2. reflexivity.
Defined.

(** X16.  When [displayCombinedResults] renders, the feature analysis has
    one item for every entry of [feature_comparison], under the keys of the
    payload and in its order. *)
Theorem feature_analysis_lists_every_feature
  (ocrData faceData : value) (html : CombinedHtml) :
  combined_html ocrData faceData = inr html ->
  exists features featureEntries,
    prop faceData "feature_comparison" = inr features /\
    entries features = inr featureEntries /\
    map feature_key (html_features html) = map fst featureEntries /\
    length (html_features html) = length featureEntries.
Proof.
  intros H. unfold combined_html in H. and_then_inv H.
  injection H as <-. cbn [html_features].
  eexists _, _. split; [reflexivity|]. split; [eassumption|].
  pose proof (map_exn_feature_item_keys _ _ ltac:(eassumption)) as Hkeys.
  split; [exact Hkeys|].
  rewrite <- (length_map feature_key), Hkeys. apply length_map.
Qed.

Lemma feature_analysis_lists_every_feature_witness :
  exists html,
    combined_html ocr_payload face_payload = inr html /\
    map feature_key (html_features html) = ["eyes"; "jaw_line"].
Proof.
  destruct (combined_html ocr_payload face_payload) as [e | html] eqn:Hhtml;
    [vm_compute in Hhtml; discriminate Hhtml|].
  exists html. split; [reflexivity|].
  destruct (feature_analysis_lists_every_feature
              ocr_payload face_payload html Hhtml)
    as (features & featureEntries & Hprop & Hentries & Hkeys & _).
  injection Hprop as <-. injection Hentries as <-. exact Hkeys.
Defined.

Lemma similarityLevel_cases (n : Number) :
  (similarityLevel n = "high" /\ (80 <= num_value n)%Q) \/
  (similarityLevel n = "medium" /\ (60 <= num_value n < 80)%Q) \/
  (similarityLevel n = "low" /\ (num_value n < 60)%Q).
Proof.
  unfold similarityLevel.
  destruct (Qle_bool 80 (num_value n)) eqn:H80.
  - left. split; [reflexivity | apply Qle_bool_iff; exact H80].
  - assert (Hlt80 : (num_value n < 80)%Q).
    { apply Qnot_le_lt. intros Hle. apply Qle_bool_iff in Hle. congruence. }
    destruct (Qle_bool 60 (num_value n)) eqn:H60.
    + right; left. split; [reflexivity|].
      split; [apply Qle_bool_iff; exact H60 | exact Hlt80].
    + right; right. split; [reflexivity|].
      apply Qnot_le_lt. intros Hle. apply Qle_bool_iff in Hle. congruence.
Qed.

(** X17.  What a rendering needs: [displayCombinedResults] renders only
    when [ocrData] and [faceData] are neither null nor undefined and the
    similarity is a number; the level shown with it is ["high"] from 80,
    ["medium"] from 60 to below 80, and ["low"] below 60. *)
Theorem rendering_needs_ocr_and_numeric_similarity
  (ocrData faceData : value) (html : CombinedHtml) :
  combined_html ocrData faceData = inr html ->
  nullish ocrData = false /\
  nullish faceData = false /\
  exists comparison,
    prop faceData "comparison" = inr comparison /\
    prop comparison "similarity_percentage" = inr (VNum (html_similarity html)) /\
    ((html_similarity_level html = "high" /\
      (80 <= num_value (html_similarity html))%Q) \/
     (html_similarity_level html = "medium" /\
      (60 <= num_value (html_similarity html) < 80)%Q) \/
     (html_similarity_level html = "low" /\
      (num_value (html_similarity html) < 60)%Q)).
Proof.
  intros H.
  split.
  { destruct (nullish ocrData) eqn:Hnull; [|reflexivity].
    destruct (combined_html_without_ocr ocrData faceData Hnull) as (e & He).
    congruence. }
  unfold combined_html in H. and_then_inv H.
  injection H as <-. cbn [html_similarity html_similarity_level].
  split.
  { destruct faceData; try reflexivity; discriminate. }
  eexists. split; [reflexivity|].
  match goal with
  | Hn : toFixed_receiver ?v = inr ?n |- _ =>
      destruct v; try discriminate Hn; injection Hn as ->
  end.
  split; [assumption|]. apply similarityLevel_cases.
Qed.

Lemma rendering_needs_ocr_and_numeric_similarity_witness :
  exists html,
    combined_html ocr_payload face_payload = inr html /\
    html_similarity_level html = "high".
Proof.
  destruct (combined_html ocr_payload face_payload) as [e | html] eqn:Hhtml;
    [vm_compute in Hhtml; discriminate Hhtml|].
  exists html. split; [reflexivity|].
  destruct (rendering_needs_ocr_and_numeric_similarity
              ocr_payload face_payload html Hhtml)
    as (_ & _ & comparison & Hc & Hs & [(Hhigh & _) | [(_ & _ & Hlt) | (_ & Hlt)]]).
  - exact Hhigh.
  - injection Hc as <-. cbn in Hs. injection Hs as Hn.
    rewrite <- Hn in Hlt. vm_compute in Hlt. discriminate Hlt.
  - injection Hc as <-. cbn in Hs. injection Hs as Hn.
    rewrite <- Hn in Hlt. vm_compute in Hlt. discriminate Hlt.
Defined.

(** ** The step blocks and the indicator after [goToStep] *)

Lemma show_block_hidden (position : nat) (blocks : list bool) :
  position < length blocks ->
  exists shown,
    show_block position (map (fun _ : bool => false) blocks) = Some shown /\
    length shown = length blocks /\
    (forall i, nth i shown false = (Nat.eqb i position)) /\
    count_occ bool_dec shown true = 1.
Proof.
  revert position. induction blocks as [|b rest IH]; intros position Hlt.
  - cbn in Hlt. lia.
  - destruct position as [|position]; cbn.
    + eexists. split; [reflexivity|]. cbn. rewrite length_map.
      split; [reflexivity|]. split.
      * intros [|i]; cbn; [reflexivity|].
        clear. revert i. induction rest as [|b' rest IH]; intros [|i]; cbn; auto.
      * f_equal. clear. induction rest as [|b' rest IH]; cbn; auto.
    + destruct (IH position) as (shown & -> & Hlen & Hnth & Hcount);
        [cbn in Hlt; lia|].
      eexists. split; [reflexivity|]. cbn.
      split; [congruence|]. split; [|exact Hcount].
      intros [|i]; cbn; [reflexivity | apply Hnth].
Qed.

Lemma show_block_beyond (position : nat) (blocks : list bool) :
  length blocks <= position -> show_block position blocks = None.
Proof.
  revert position. induction blocks as [|b rest IH]; intros position Hle.
  - destruct position; reflexivity.
  - destruct position as [|position]; cbn in Hle |- *; [lia|].
    rewrite IH by lia. reflexivity.
Qed.

Lemma mark_steps_nth (stepNumber index i : nat) (marks : list StepMark) :
  i < length marks ->
  nth i (mark_steps stepNumber index marks) (mkStepMark false false) =
  mkStepMark (Nat.eqb (index + i + 1) stepNumber) (Nat.ltb (index + i + 1) stepNumber).
Proof.
  revert index i. induction marks as [|m rest IH]; intros index i Hlt.
  - cbn in Hlt. lia.
  - destruct i as [|i]; cbn [mark_steps nth].
    + replace (index + 0 + 1) with (index + 1) by lia.
      destruct (Nat.ltb_spec (index + 1) stepNumber) as [Hbefore | Hnot].
      * replace (Nat.eqb (index + 1) stepNumber) with false
          by (symmetry; apply Nat.eqb_neq; lia).
        reflexivity.
      * destruct (Nat.eqb (index + 1) stepNumber); reflexivity.
    + rewrite IH by (cbn in Hlt; lia).
      replace (S index + i + 1) with (index + S i + 1) by lia. reflexivity.
Qed.

Lemma mark_steps_length (stepNumber index : nat) (marks : list StepMark) :
  length (mark_steps stepNumber index marks) = length marks.
Proof.
  revert index. induction marks as [|m rest IH]; intros index; cbn; auto.
Qed.

(** X18.  [goToStep(n)] for a step that has a block: it returns normally with
    that block, and no other, on display; and in the indicator, whatever its
    classes were, the steps before [n] are completed and not active, step
    [n] is active and not completed, and the steps after are neither. *)
Theorem goToStep_shows_one_block (n : nat) (page : Wizard) :
  1 <= n <= length (step_blocks page) ->
  exists page',
    goToStep_on_page n page = Done page' /\
    length (step_blocks page') = length (step_blocks page) /\
    (forall i, nth i (step_blocks page') false = (Nat.eqb (i + 1) n)) /\
    count_occ bool_dec (step_blocks page') true = 1 /\
    length (step_marks page') = length (step_marks page) /\
    (forall i, i < length (step_marks page) ->
       nth i (step_marks page') (mkStepMark false false) =
       mkStepMark (Nat.eqb (i + 1) n) (Nat.ltb (i + 1) n)).
Proof.
  intros Hrange. unfold goToStep_on_page.
  destruct n as [|position]; [lia|].
  destruct (show_block_hidden position (step_blocks page))
    as (shown & -> & Hlen & Hnth & Hcount); [lia|].
  eexists. split; [reflexivity|]. cbn [step_blocks step_marks].
  split; [exact Hlen|]. split.
  { intros i. rewrite Hnth. replace (i + 1) with (S i) by lia. reflexivity. }
  split; [exact Hcount|]. split; [apply mark_steps_length|].
  intros i Hi. rewrite mark_steps_nth by exact Hi. reflexivity.
Qed.

(** Step 2 of a wizard of three steps whose indicator showed step 3. *)
Lemma goToStep_shows_one_block_witness :
  let page := mkWizard [false; false; true]
                [mkStepMark false true; mkStepMark false true;
                 mkStepMark true false] in
  goToStep_on_page 2 page =
    Done (mkWizard [false; true; false]
            [mkStepMark false true; mkStepMark true false;
             mkStepMark false false]) /\
  exists page',
    goToStep_on_page 2 page = Done page' /\
    length (step_blocks page') = length (step_blocks page) /\
    (forall i, nth i (step_blocks page') false = (Nat.eqb (i + 1) 2)) /\
    count_occ bool_dec (step_blocks page') true = 1 /\
    length (step_marks page') = length (step_marks page) /\
    (forall i, i < length (step_marks page) ->
       nth i (step_marks page') (mkStepMark false false) =
       mkStepMark (Nat.eqb (i + 1) 2) (Nat.ltb (i + 1) 2)).
Proof.
  intros page. split; [reflexivity|].
  apply (goToStep_shows_one_block 2 page). cbn. lia.
Defined.

(** X19.  [goToStep(n)] for a number without a block (0, or beyond the last
    step) throws after it has hidden every block: no step is on display any
    more, and the indicator is left as it was. *)
Theorem goToStep_without_block_hides_all (n : nat) (page : Wizard) :
  n = 0 \/ length (step_blocks page) < n ->
  goToStep_on_page n page =
    Threw TypeError
      (mkWizard (map (fun _ : bool => false) (step_blocks page))
         (step_marks page)) /\
  count_occ bool_dec (step_blocks (state_of (goToStep_on_page n page))) true = 0 /\
  step_marks (state_of (goToStep_on_page n page)) = step_marks page.
Proof.
  intros Hout. unfold goToStep_on_page.
  assert (Hnone : forall blocks : list bool,
             count_occ bool_dec (map (fun _ : bool => false) blocks) true = 0).
  { induction blocks as [|b rest IH]; cbn; auto. }
  destruct n as [|position].
  - cbn. repeat split. apply Hnone.
  - rewrite show_block_beyond by (rewrite length_map; destruct Hout; lia).
    cbn. repeat split. apply Hnone.
Qed.

Lemma goToStep_without_block_hides_all_witness :
  let page := mkWizard [false; true; false]
                [mkStepMark false true; mkStepMark true false;
                 mkStepMark false false] in
  goToStep_on_page 4 page =
    Threw TypeError
      (mkWizard [false; false; false]
         [mkStepMark false true; mkStepMark true false;
          mkStepMark false false]) /\
  count_occ bool_dec (step_blocks (state_of (goToStep_on_page 4 page))) true = 0 /\
  step_marks (state_of (goToStep_on_page 4 page)) = step_marks page.
Proof.
  intros page.
  apply (goToStep_without_block_hides_all 4 page). right. cbn. lia.
Defined.

(** ** Live updates *)

Lemma elements_app {A : Type} (l1 l2 : list (Node A)) :
  elements (l1 ++ l2)%list = (elements l1 ++ elements l2)%list.
Proof.
  induction l1 as [|[text | element] l1 IH]; cbn; [reflexivity | exact IH |].
  rewrite IH. reflexivity.
Qed.

Lemma prepend_capped_cases {A : Type} (x : A) (nodes : list (Node A)) :
  (length (elements nodes) < 5 /\
   prepend_capped x nodes = ElementNode x :: nodes) \/
  (5 <= length (elements nodes) /\
   prepend_capped x nodes = ElementNode x :: removelast nodes).
Proof.
  unfold prepend_capped. cbn [elements length].
  destruct (Nat.ltb_spec 5 (S (length (elements nodes)))) as [Hover | Hfits].
  - right. split; [lia|].
    destruct nodes as [|node rest]; [cbn in Hover; lia | reflexivity].
  - left. split; [lia | reflexivity].
Qed.

Lemma elements_only_elements {A : Type} (nodes : list (Node A)) :
  Forall (fun node => exists element, node = ElementNode element) nodes ->
  nodes = map ElementNode (elements nodes).
Proof.
  induction 1 as [|node rest (element & ->) _ IH]; cbn; [reflexivity|].
  f_equal. exact IH.
Qed.

Lemma removelast_map {A B : Type} (f : A -> B) (l : list A) :
  removelast (map f l) = map f (removelast l).
Proof.
  induction l as [|a [|b rest] IH]; cbn; try reflexivity.
  f_equal. exact IH.
Qed.

Lemma elements_map_ElementNode {A : Type} (l : list A) :
  elements (map ElementNode l) = l.
Proof.
  induction l as [|a rest IH]; cbn; [reflexivity | f_equal; exact IH].
Qed.

Lemma removelast_firstn_length {A : Type} (l : list A) :
  removelast l = firstn (length l - 1) l.
Proof.
  induction l as [|a [|b rest] IH]; cbn; try reflexivity.
  cbn in IH. rewrite IH. rewrite Nat.sub_0_r. reflexivity.
Qed.

(** X20.  A live transaction that can be rendered is put first in the body
    of the table, highlighted; the nodes that were there follow in their
    order, all of them when there were fewer than five rows, all but the
    last node when there were five rows or more. *)
Theorem live_transaction_goes_first
  (transaction : value) (row : TransactionRow) (live : Live)
  (nodes : list (Node TransactionRow)) :
  transactions_tbody live = Some nodes ->
  new_transaction_row transaction = inr row ->
  exists kept,
    prependTransactionToTable transaction live =
      Done (set_transactions_tbody (Some (ElementNode row :: kept)) live) /\
    row_highlight row = true /\
    ((length (elements nodes) < 5 /\ kept = nodes) \/
     (5 <= length (elements nodes) /\ kept = removelast nodes)).
Proof.
  intros Htbody Hrow. unfold prependTransactionToTable.
  rewrite Htbody, Hrow.
  assert (Hhigh : row_highlight row = true).
  { unfold new_transaction_row in Hrow. and_then_inv Hrow.
    injection Hrow as <-. reflexivity. }
  destruct (prepend_capped_cases row nodes) as [(Hfew & ->) | (Hmany & ->)];
    eexists; (split; [reflexivity|]); (split; [exact Hhigh|]); auto.
Qed.

(** X21.  When the body of the table holds rows only, at most five of them,
    it holds at most five rows after a live transaction: the new row and
    the first four of the old ones. *)
Theorem live_transactions_keep_five_rows
  (transaction : value) (row : TransactionRow) (live : Live)
  (nodes : list (Node TransactionRow)) :
  transactions_tbody live = Some nodes ->
  new_transaction_row transaction = inr row ->
  Forall (fun node => exists element, node = ElementNode element) nodes ->
  length (elements nodes) <= 5 ->
  exists nodes',
    transactions_tbody (state_of (prependTransactionToTable transaction live)) =
      Some nodes' /\
    Forall (fun node => exists element, node = ElementNode element) nodes' /\
    elements nodes' = firstn 5 (row :: elements nodes) /\
    length (elements nodes') <= 5.
Proof.
  intros Htbody Hrow Hrows Hfive. unfold prependTransactionToTable.
  rewrite Htbody, Hrow. cbn [state_of set_transactions_tbody transactions_tbody].
  eexists. split; [reflexivity|].
  pose proof (elements_only_elements nodes Hrows) as Hnodes.
  destruct (prepend_capped_cases row nodes) as [(Hfew & ->) | (Hmany & ->)].
  - split; [constructor; [eexists; reflexivity | exact Hrows]|].
    cbn [elements]. split.
    + change (firstn 5 (row :: elements nodes))
        with (row :: firstn 4 (elements nodes)).
      f_equal. symmetry. apply firstn_all2. lia.
    + cbn. lia.
  - assert (Hlen : length (elements nodes) = 5) by lia.
    replace (removelast nodes)
      with (map (@ElementNode TransactionRow) (removelast (elements nodes)))
      by (rewrite <- removelast_map, <- Hnodes; reflexivity).
    split.
    { constructor; [eexists; reflexivity|].
      apply Forall_forall. intros node Hin. apply in_map_iff in Hin.
      destruct Hin as (element & <- & _). eexists; reflexivity. }
    cbn [elements]. rewrite elements_map_ElementNode.
    change (firstn 5 (row :: elements nodes))
      with (row :: firstn 4 (elements nodes)).
    rewrite removelast_firstn_length, Hlen.
    change (5 - 1) with 4.
    split; [reflexivity|].
    cbn [length]. rewrite length_firstn. lia.
Qed.

(** X22.  When the last child of the body is a text node (such as the
    white space after the last row of a table written as markup) and there
    are five rows or more, a live transaction removes that text and no row:
    every old row stays and the table has one row more. *)
Theorem live_transaction_drops_trailing_text
  (transaction : value) (row : TransactionRow) (live : Live)
  (front : list (Node TransactionRow)) (text : string) :
  transactions_tbody live = Some (front ++ [TextNode text])%list ->
  new_transaction_row transaction = inr row ->
  5 <= length (elements front) ->
  transactions_tbody (state_of (prependTransactionToTable transaction live)) =
    Some (ElementNode row :: front) /\
  elements (ElementNode row :: front) = row :: elements (front ++ [TextNode text])%list /\
  length (elements (ElementNode row :: front)) =
    S (length (elements (front ++ [TextNode text])%list)).
Proof.
  intros Htbody Hrow Hmany. unfold prependTransactionToTable.
  rewrite Htbody, Hrow. cbn [state_of set_transactions_tbody transactions_tbody].
  assert (Hsame : elements (front ++ [TextNode text])%list = elements front).
  { rewrite elements_app. cbn. apply app_nil_r. }
  destruct (prepend_capped_cases row (front ++ [TextNode text])%list)
    as [(Hfew & _) | (_ & ->)].
  - rewrite Hsame in Hfew. lia.
  - rewrite removelast_last, Hsame. cbn. repeat split.
Qed.

(** A table of two rows. *)
Lemma live_transaction_goes_first_witness :
  let live := live_dashboard [old_row "TXN-2"; old_row "TXN-1"] in
  exists row kept,
    new_transaction_row flagged_transaction = inr row /\
    row_id row = "TXN-1042" /\
    prependTransactionToTable flagged_transaction live =
      Done (set_transactions_tbody (Some (ElementNode row :: kept)) live) /\
    kept = [old_row "TXN-2"; old_row "TXN-1"].
Proof.
  intros live.
  destruct (new_transaction_row flagged_transaction) as [e | row] eqn:Hrow;
    [vm_compute in Hrow; discriminate Hrow|].
  destruct (live_transaction_goes_first flagged_transaction row live
              [old_row "TXN-2"; old_row "TXN-1"] eq_refl Hrow)
    as (kept & Hrun & _ & [(_ & Hkept) | (Hmany & _)]).
  - exists row, kept. split; [reflexivity|]. split.
    + vm_compute in Hrow. injection Hrow as <-. reflexivity.
    + split; assumption.
  - cbn in Hmany. lia.
Defined.

(** A table of five rows. *)
Lemma live_transactions_keep_five_rows_witness :
  let nodes := [old_row "5"; old_row "4"; old_row "3"; old_row "2"; old_row "1"] in
  let live := live_dashboard nodes in
  exists nodes',
    transactions_tbody
      (state_of (prependTransactionToTable flagged_transaction live)) = Some nodes' /\
    map row_id (elements nodes') = ["TXN-1042"; "5"; "4"; "3"; "2"].
Proof.
  intros nodes live.
  destruct (new_transaction_row flagged_transaction) as [e | row] eqn:Hrow;
    [vm_compute in Hrow; discriminate Hrow|].
  destruct (live_transactions_keep_five_rows flagged_transaction row live nodes
              eq_refl Hrow)
    as (nodes' & Htbody & _ & Helements & _).
  - repeat constructor; eexists; reflexivity.
  - cbn. lia.
  - exists nodes'. split; [exact Htbody|].
    rewrite Helements. vm_compute in Hrow. injection Hrow as <-. reflexivity.
Defined.

(** Five rows followed by white space: six rows afterwards. *)
Lemma live_transaction_drops_trailing_text_witness :
  let front := [old_row "5"; old_row "4"; old_row "3"; old_row "2"; old_row "1"] in
  let live := live_dashboard (front ++ [TextNode " "])%list in
  exists row,
    new_transaction_row flagged_transaction = inr row /\
    transactions_tbody
      (state_of (prependTransactionToTable flagged_transaction live)) =
      Some (ElementNode row :: front) /\
    length (elements (ElementNode row :: front)) = 6.
Proof.
  intros front live.
  destruct (new_transaction_row flagged_transaction) as [e | row] eqn:Hrow;
    [vm_compute in Hrow; discriminate Hrow|].
  exists row. split; [reflexivity|].
  destruct (live_transaction_drops_trailing_text flagged_transaction row live
              front " " eq_refl Hrow) as (Htbody & _ & _).
  - cbn. lia.
  - split; [exact Htbody | reflexivity].
Defined.

(** X23.  A flagged transaction that cannot be rendered as a row, while its
    notice can be built, is notified or not depending on the tab: with the
    dashboard on display and a table in it, [handleNewTransaction] throws
    before the notification and changes nothing; with the dashboard hidden,
    or without a table, it returns and shows the notification (when
    notifications are granted). *)
Theorem unrenderable_flagged_transaction
  (transaction flagged : value) (e : Exn) (notice : FlaggedNotice) (live : Live) :
  new_transaction_row transaction = inl e ->
  prop transaction "flagged" = inr flagged ->
  truthy flagged = true ->
  flagged_notice transaction = inr notice ->
  notification_granted live = true ->
  handleNewTransaction transaction live =
    (if dashboard_active live &&
        match transactions_tbody live with Some _ => true | None => false end
     then Threw e live
     else Done (showNotification "Suspicious Transaction Detected!" notice live)) /\
  notifications (showNotification "Suspicious Transaction Detected!" notice live) =
    (notifications live ++ [("Suspicious Transaction Detected!", notice)])%list /\
  transactions_tbody (state_of (handleNewTransaction transaction live)) =
    transactions_tbody live.
Proof.
  intros Hrow Hflagged Htruthy Hnotice Hgranted.
  destruct live as [active tbody alerts granted shown played].
  cbn in Hgranted. subst granted.
  unfold handleNewTransaction, prependTransactionToTable, showNotification.
  destruct active, tbody; cbn;
    rewrite ?Hrow; cbn; rewrite ?Hflagged; cbn; rewrite ?Htruthy; cbn;
    rewrite ?Hnotice; cbn; repeat split.
Qed.

Lemma unrenderable_flagged_transaction_witness :
  let shown := live_dashboard [old_row "TXN-1"] in
  let hidden := mkLive false (Some [old_row "TXN-1"]) None true [] 0 in
  handleNewTransaction unrated_transaction shown = Threw TypeError shown /\
  exists notice,
    handleNewTransaction unrated_transaction hidden =
      Done (mkLive false (Some [old_row "TXN-1"]) None true
              [("Suspicious Transaction Detected!", notice)] 0).
Proof.
  intros shown hidden.
  destruct (flagged_notice unrated_transaction) as [e | notice] eqn:Hnotice;
    [vm_compute in Hnotice; discriminate Hnotice|].
  assert (Hrow : new_transaction_row unrated_transaction = inl TypeError)
    by (vm_compute; reflexivity).
  split.
  - exact (proj1 (unrenderable_flagged_transaction unrated_transaction
                    (VBool true) TypeError notice shown
                    Hrow eq_refl eq_refl Hnotice eq_refl)).
  - exists notice.
    exact (proj1 (unrenderable_flagged_transaction unrated_transaction
                    (VBool true) TypeError notice hidden
                    Hrow eq_refl eq_refl Hnotice eq_refl)).
Defined.


(** ** The manual verification form *)

(** Splits a submission of the manual form into all the ways it can go. *)
Ltac kyc_paths :=
  unfold kyc_form_submit, kyc_submit_try, displayKYCResult, on_world;
  js_unfold; cbn;
  repeat match goal with
         | |- context [match ?x with _ => _ end] =>
             lazymatch x with
             | context [match _ with _ => _ end] => fail
             | _ => destruct x eqn:?; cbn
             end
         end.

(** X25.  A submission of the manual verification form never throws: it
    always makes exactly one request, which carries the three fields as
    they were typed; it emits exactly one notification; and it has hidden
    the loading overlay when it returns, without changing the fields. *)
Theorem kyc_submission_always_completes (net : JsonNetwork) (page : KycPage) :
  exists page' message type,
    kyc_form_submit net page = Done page' /\
    kyc_requests page' = (kyc_requests page ++ [kyc_request page])%list /\
    json_body (kyc_request page) =
      VObj [("full_name", VStr (full_name page));
            ("document_type", VStr (doc_type page));
            ("document_number", VStr (doc_number page))] /\
    toasts (skipn (length (effects (kyc_world page)))
              (effects (kyc_world page'))) = [(message, type)] /\
    (type = "success" \/ type = "error") /\
    loading_overlay (kyc_world page') = false /\
    (full_name page' = full_name page /\ doc_type page' = doc_type page /\
     doc_number page' = doc_number page).
Proof.
  kyc_paths.
  all: eexists _, _, _; split; [reflexivity|]; cbn;
    rewrite <- ?app_assoc; rewrite ?skipn_length_app; cbn;
    repeat split; auto.
Qed.

(** X26.  The result of the manual verification is written and put on
    display only by a submission that ends with the success notification.
    On every other path -- the request fails, the answer has no true
    [success], or the result cannot be rendered -- the result pane keeps
    the content and the visibility it had, so that an earlier result stays
    on display next to the error notification. *)
Theorem kyc_result_changes_only_on_success (net : JsonNetwork) (page : KycPage) :
  let page' := state_of (kyc_form_submit net page) in
  (toast_text (kyc_world page') = "Document verified successfully!" /\
   kyc_result_shown page' = true /\
   exists data result html,
     net (kyc_request page) = Some (Parsed data) /\
     prop data "data" = inr result /\
     kyc_html result = inr html /\
     kyc_result_content page' = Some html) \/
  (toast_text (kyc_world page') <> "Document verified successfully!" /\
   kyc_result_content page' = kyc_result_content page /\
   kyc_result_shown page' = kyc_result_shown page).
Proof.
  kyc_paths.
  all: try (right; repeat split; cbn; try discriminate; fail).
  left. repeat split. eexists _, _, _. repeat split; eauto.
Qed.

(** ** The whole flow *)

(** X27.  From any state the loaded page reaches with a document attached:
    when the OCR form is submitted and answered with a true [success] and
    data of the expected shape, then a selfie is chosen, and the selfie form
    is submitted and answered with a true [success] and data of the expected
    shape, step 3 is on display with the result rendered from these two
    payloads; exactly two requests were made on the way, and the document
    sent for comparison is the file that was sent for OCR. *)
Theorem verification_runs_to_the_result
  (d : string) (evs : list Event) (ocr_net face_net : Network)
  (file selfie : File) (rest others : list File)
  (ocr_body ocr_data face_body face_data : value) :
  let w := run evs (page_loaded d) in
  document_file w = file :: rest ->
  ocr_net (ocr_request file (doc_type_ocr w)) = Some (Parsed ocr_body) ->
  succeeded ocr_body = true ->
  prop ocr_body "data" = inr ocr_data ->
  ocr_shape ocr_data = true ->
  face_net (face_compare_request file selfie) = Some (Parsed face_body) ->
  succeeded face_body = true ->
  prop face_body "data" = inr face_data ->
  face_shape face_data = true ->
  let w' := run [OcrFormSubmit ocr_net;
                 SelfieFileChange (selfie :: others);
                 SelfieFormSubmit face_net] w in
  step_shown w' = 3 /\
  ocrResult w' = ocr_data /\
  (exists html,
     combined_html ocr_data face_data = inr html /\
     combined_results w' = Some html) /\
  requests (effects w') =
    (requests (effects w) ++
     [ocr_request file (doc_type_ocr w); face_compare_request file selfie])%list /\
  toast_text w' = verification_done_text.
Proof.
  intros w Hfiles Hocr Hok1 Hdata1 Hshape1 Hface Hok2 Hdata2 Hshape2 w'.
  assert (Hstored : documentImageFile w = Some file).
  { apply (reachable_attached_is_stored w) with (rest := rest); [|exact Hfiles].
    apply reachable_run. constructor. }
  destruct (processOCRAndContinue_success ocr_net w file rest ocr_body
              Hfiles Hocr Hok1) as (payload1 & Hp1 & Hrun1).
  assert (payload1 = ocr_data) by congruence. subst payload1.
  destruct (combined_html_of_shapes ocr_data face_data Hshape1 Hshape2)
    as (html & Hhtml).
  remember (dispatch w (OcrFormSubmit ocr_net)) as w1 eqn:Hw1.
  unfold dispatch in Hw1. cbn [listener] in Hw1. rewrite Hrun1 in Hw1.
  cbn [world_of] in Hw1.
  remember (dispatch w1 (SelfieFileChange (selfie :: others))) as w2 eqn:Hw2.
  assert (Hdoc2 : documentImageFile w2 = Some file)
    by (subst w2 w1; exact Hstored).
  assert (Hselfie2 : selfie_file w2 = selfie :: others)
    by (subst w2; reflexivity).
  assert (Hocr2 : ocrResult w2 = ocr_data) by (subst w2 w1; reflexivity).
  assert (Hreq2 : requests (effects w2) =
                  (requests (effects w) ++
                   [ocr_request file (doc_type_ocr w)])%list).
  { subst w2 w1. cbn. rewrite !requests_app. cbn.
    rewrite !app_nil_r. reflexivity. }
  destruct (processFaceComparison_success face_net w2 file selfie others
              face_body Hdoc2 Hselfie2 Hface Hok2) as (payload2 & Hp2 & Hrun2).
  assert (payload2 = face_data) by congruence. subst payload2.
  rewrite Hocr2, Hhtml in Hrun2.
  assert (Hw' : w' = world_of (processFaceComparison face_net w2)).
  { subst w' w2 w1. unfold run. cbn [fold_left].
    unfold dispatch at 1. cbn [listener].
    unfold dispatch at 2. cbn [listener]. rewrite Hrun1. reflexivity. }
  rewrite Hw', Hrun2. cbn.
  rewrite !requests_app, Hreq2. cbn. rewrite !app_nil_r, <- !app_assoc.
  split; [reflexivity|]. split; [exact Hocr2|]. split.
  { exists html. split; [exact Hhtml | reflexivity]. }
  split; reflexivity.
Qed.

Lemma verification_runs_to_the_result_witness :
  let w := run [DocumentFileChange [id_123_jpg]] (page_loaded "passport") in
  let w' := run [OcrFormSubmit (respond (ok ocr_payload));
                 SelfieFileChange [selfie_jpg];
                 SelfieFormSubmit (respond (ok face_payload))] w in
  step_shown w' = 3 /\
  ocrResult w' = ocr_payload /\
  (exists html,
     combined_html ocr_payload face_payload = inr html /\
     combined_results w' = Some html) /\
  requests (effects w') =
    (requests (effects w) ++
     [ocr_request id_123_jpg (doc_type_ocr w);
      face_compare_request id_123_jpg selfie_jpg])%list /\
  toast_text w' = verification_done_text.
Proof.
  intros w.
  apply (verification_runs_to_the_result "passport"
           [DocumentFileChange [id_123_jpg]]
           (respond (ok ocr_payload)) (respond (ok face_payload))
           id_123_jpg selfie_jpg [] [] (ok ocr_payload) ocr_payload
           (ok face_payload) face_payload); reflexivity.
Defined.
